(** * Magic Hands: gesture-to-force translation and projectile engine

    A shallow embedding of the core of [MagicHands.tsx]: the velocity
    tracker, the projectile ("magic ball") engine, the coordinate mapper,
    the finger-ray generator and the per-frame dispatcher [processResults].

    Conventions of the embedding.
    - A JavaScript [number] holding a coordinate, a velocity or a colour
      channel is an exact rational ([Q]); rounding is abstracted away, so
      an approximate equality of the source reads [==] here.  Counters
      that only ever hold integers ([life], [maxLife], the millisecond
      readings of [Date.now()]) are integers ([Z]).
    - The host library ([Math.sqrt], [Math.sin], [Math.cos], [Math.PI])
      is an interface, class [JsMath]; [Math.random()] and [Date.now()]
      are passed in as the values they returned.
    - Module-level mutable variables ([magicBalls], the two histories,
      [previousTouches]) are fields of an explicit [Engine] state.
    - A call into the force-field surface ([createSplat], [sendTouch*])
      or into an effect generator is an entry of an output trace.
    - Division is the total division of [Q]; a statement whose truth
      depends on a divisor says that the divisor is not zero, and
      [createFingerRay], whose zero-length case is about dividing by
      zero, checks each of its divisors. *)

From Stdlib Require Import String Bool ZArith QArith Qabs Qminmax Qround Lia Lqa
  List.
Import ListNotations.

Local Open Scope Q_scope.

(** * Part I: the program *)

(** ** Host interfaces *)

(** The part of the JavaScript [Math] object whose results are not
    rational functions of the arguments. *)
Class JsMath : Type := {
  Math_sqrt : Q -> Q;
  Math_sin  : Q -> Q;
  Math_cos  : Q -> Q;
  Math_PI   : Q
}.

(** The canvas element and the window the component reads its geometry
    from: [fluidCanvasElement.width], [fluidCanvasElement.height] and
    [window.devicePixelRatio]. *)
Record Env : Type := {
  canvas_width : Q;
  canvas_height : Q;
  devicePixelRatio : Q
}.

(** ** Numbers *)

(** [a < b] as the test of an [if]. *)
Definition Qlt_bool (a b : Q) : bool := negb (Qle_bool b a).

(** JavaScript truthiness of a number: every number but zero. *)
Definition truthy (n : Q) : bool := negb (Qeq_bool n 0).

Definition Math_max (a b : Q) : Q := Qmax a b.
Definition Math_min (a b : Q) : Q := Qmin a b.
Definition Math_abs (a : Q) : Q := Qabs a.

(** [Math.trunc]: the integer part, rounding toward zero. *)
Definition Qtrunc (a : Q) : Z := Z.quot (Qnum a) (Zpos (Qden a)).

(** The remainder operator [a % b], which takes the sign of [a]. *)
Definition js_rem (a b : Q) : Q := a - b * inject_Z (Qtrunc (a / b)).

(** [window.devicePixelRatio || 1] *)
Definition pixelRatio (env : Env) : Q :=
  if truthy (devicePixelRatio env) then devicePixelRatio env else 1.

(** ** Arrays *)

(** [while (arr.length > limit) arr.shift();] -- each round drops the
    first element. *)
Fixpoint shiftWhileLonger {A : Type} (limit : nat) (arr : list A) : list A :=
  match arr with
  | [] => []
  | _ :: rest =>
      if (limit <? length arr)%nat then shiftWhileLonger limit rest else arr
  end.

(** [arr.push(v)] *)
Definition push {A : Type} (arr : list A) (v : A) : list A := arr ++ [v].

(** [arr.splice(i, 1)] *)
Definition splice1 {A : Type} (i : nat) (arr : list A) : list A :=
  firstn i arr ++ skipn (S i) arr.

(** The array after the object at index [i] was mutated into [v]. *)
Definition setAt {A : Type} (i : nat) (v : A) (arr : list A) : list A :=
  firstn i arr ++ v :: skipn (S i) arr.

(** ** Coordinates *)

Record PageCoords : Type := { pageX : Q; pageY : Q }.

Module Coords2D.
Record t : Type := { x : Q; y : Q }.
End Coords2D.

Module NormalizedLandmark.
Record t : Type := { x : Q; y : Q; z : Q }.

(** A landmark passed where a [Coords2D] is expected. *)
Definition coords (l : t) : Coords2D.t :=
  {| Coords2D.x := x l; Coords2D.y := y l |}.
End NormalizedLandmark.

(** The conversion every generator and the velocity tracker inline:
    [coords.pageX * pixelRatio / canvas.width] and
    [1.0 - (coords.pageY * pixelRatio / canvas.height)]. *)
Definition normalizedX (env : Env) (coords : PageCoords) : Q :=
  pageX coords * pixelRatio env / canvas_width env.

Definition normalizedY (env : Env) (coords : PageCoords) : Q :=
  1.0 - (pageY coords * pixelRatio env / canvas_height env).

Definition getPageCoords (env : Env) (normalizedCoord : option Coords2D.t)
  : option PageCoords :=
  match normalizedCoord with
  | None => None
  | Some normalizedCoord =>
      let pixelRatio := pixelRatio env in
      let screenWidth := canvas_width env in
      let screenHeight := canvas_height env in
      let pageX := (Coords2D.x normalizedCoord * screenWidth) / pixelRatio in
      let pageY := (Coords2D.y normalizedCoord * screenHeight) / pixelRatio in
      Some {| pageX := pageX; pageY := pageY |}
  end.

(** The indices of [HAND_LABEL_INDEX] the component reads, and the helper
    [triangleCentroid] of [math-utils]: both are imported from modules
    outside the component and stay parameters. *)
Class HandUtils : Type := {
  WRIST : nat;
  INDEX_FINGER_MCP : nat;
  INDEX_FINGER_TIP : nat;
  PINKY_FINGER_MCP : nat;
  triangleCentroid :
    option NormalizedLandmark.t -> option NormalizedLandmark.t ->
    option NormalizedLandmark.t -> option Coords2D.t
}.

(** ** Impulses *)

Module Color.
Record t : Type := { r : Q; g : Q; b : Q }.
End Color.

(** The arguments of one [fluidSimulation.createSplat?.(x, y, dx, dy, color)]. *)
Module Splat.
Record t : Type := { x : Q; y : Q; dx : Q; dy : Q; color : Color.t }.
End Splat.

(** ** Projectiles *)

Module MagicBall.

Record t : Type := {
  x : Q;
  y : Q;
  vx : Q;
  vy : Q;
  color : Color.t;
  life : Z;
  maxLife : Z;
  radius : Q
}.

(** [constructor(x, y, vx, vy, color)] *)
Definition new (x y vx vy : Q) (color : Color.t) : t :=
  {| x := x; y := y; vx := vx; vy := vy; color := color;
     maxLife := 120; life := 120; radius := 0.03 |}.

(** [update()]: the ball after the call, and the call's result
    [this.life > 0]. *)
Definition update (this : t) : t * bool :=
  let x1 := x this + vx this * 0.016 in
  let y1 := y this + vy this * 0.016 in
  let vy1 := vy this + 0.5 in
  let crossed := Qlt_bool x1 0 || Qlt_bool 1 x1 in
  let vx1 := if crossed then vx this * -0.8 else vx this in
  let x2 := if crossed then Math_max 0 (Math_min 1 x1) else x1 in
  let life1 := (life this - 1)%Z in
  ({| x := x2; y := y1; vx := vx1; vy := vy1; color := color this;
      life := life1; maxLife := maxLife this; radius := radius this |},
   (0 <? life1)%Z).

(** [createFluidEffect(fluidSimulation)]: the splats it sends, in order. *)
Definition createFluidEffect `{JsMath} (this : t) : list Splat.t :=
  let opacity := inject_Z (life this) / inject_Z (maxLife this) in
  let effectColor :=
    {| Color.r := Color.r (color this) * opacity * 0.8;
       Color.g := Color.g (color this) * opacity * 0.8;
       Color.b := Color.b (color this) * opacity * 0.8 |} in
  flat_map
    (fun i : nat =>
       let angle := (inject_Z (Z.of_nat i) / 3) * Math_PI * 2 in
       let offsetX := Math_cos angle * 0.01 in
       let offsetY := Math_sin angle * 0.01 in
       let x := x this + offsetX in
       let y := y this + offsetY in
       if Qle_bool 0 x && Qle_bool x 1 && Qle_bool 0 y && Qle_bool y 1 then
         let dx := vx this * 20 in
         let dy := vy this * 20 in
         [ {| Splat.x := x; Splat.y := y; Splat.dx := dx; Splat.dy := dy;
              Splat.color := effectColor |} ]
       else [])
    (seq 0 3).

End MagicBall.

(** ** Velocity tracker *)

Module HandVelocity.
Record t : Type := { x : Q; y : Q; timestamp : Z }.
End HandVelocity.

Module Velocity.
Record t : Type := { vx : Q; vy : Q }.
End Velocity.

Definition VELOCITY_HISTORY_SIZE : nat := 5.
Definition THROW_VELOCITY_THRESHOLD : Q := 8.

(** [now] is the reading of [Date.now()]. *)
Definition updateHandVelocityHistory (env : Env) (now : Z)
  (history : list HandVelocity.t) (coords : PageCoords)
  : list HandVelocity.t :=
  let normalizedX := normalizedX env coords in
  let normalizedY := normalizedY env coords in
  let history :=
    push history {| HandVelocity.x := normalizedX;
                    HandVelocity.y := normalizedY;
                    HandVelocity.timestamp := now |} in
  shiftWhileLonger VELOCITY_HISTORY_SIZE history.

(** The three accumulators of the loop of [detectThrowingMotion]. *)
Record ThrowSums : Type := {
  avgVx : Q;
  avgVy : Q;
  validSamples : nat
}.

(** One round of [for (let i = 1; i < history.length; i++)]. *)
Definition detectThrowingStep (history : list HandVelocity.t)
  (acc : ThrowSums) (i : nat) : ThrowSums :=
  match nth_error history i, nth_error history (i - 1) with
  | Some cur, Some prev =>
      let dt :=
        inject_Z (HandVelocity.timestamp cur - HandVelocity.timestamp prev)
        / 1000 in
      if Qlt_bool 0 dt && Qlt_bool dt 0.1 then
        let vx := (HandVelocity.x cur - HandVelocity.x prev) / dt in
        let vy := (HandVelocity.y cur - HandVelocity.y prev) / dt in
        {| avgVx := avgVx acc + vx;
           avgVy := avgVy acc + vy;
           validSamples := S (validSamples acc) |}
      else acc
  | _, _ => acc (* not reached: 1 <= i < history.length *)
  end.

Definition detectThrowingMotion `{JsMath} (history : list HandVelocity.t)
  : option Velocity.t :=
  if (length history <? 3)%nat then None
  else
    let sums :=
      fold_left (detectThrowingStep history)
                (seq 1 (length history - 1))
                {| avgVx := 0; avgVy := 0; validSamples := 0 |} in
    if (validSamples sums =? 0)%nat then None
    else
      let avgVx := avgVx sums / inject_Z (Z.of_nat (validSamples sums)) in
      let avgVy := avgVy sums / inject_Z (Z.of_nat (validSamples sums)) in
      let speed := Math_sqrt (avgVx * avgVx + avgVy * avgVy) in
      if Qlt_bool THROW_VELOCITY_THRESHOLD speed then
        Some {| Velocity.vx := avgVx; Velocity.vy := avgVy |}
      else None.

(** ** Projectile engine *)

(** [random k] is what the [k]-th call of [Math.random()] made by this
    call returned. *)
Definition throwMagicBall (env : Env) (random : nat -> Q)
  (magicBalls : list MagicBall.t) (handCoords : PageCoords)
  (velocity : Velocity.t) (isLeftHand : bool) : list MagicBall.t :=
  let startX := normalizedX env handCoords in
  let startY := normalizedY env handCoords in
  let hue := random 0%nat in
  let color :=
    {| Color.r := 0.3 + random 1%nat * 0.7;
       Color.g := 0.3 + random 2%nat * 0.7;
       Color.b := 0.3 + random 3%nat * 0.7 |} in
  let ball :=
    MagicBall.new startX startY (Velocity.vx velocity) (Velocity.vy velocity)
                  color in
  shiftWhileLonger 10 (push magicBalls ball).

(** The loop [for (let i = magicBalls.length - 1; i >= 0; i--)] with
    [todo] indices left to visit, the next one being [todo - 1]; it
    returns the array it leaves and the splats sent, in order. *)
Fixpoint updateMagicBallsLoop `{JsMath} (todo : nat)
  (magicBalls : list MagicBall.t) : list MagicBall.t * list Splat.t :=
  match todo with
  | O => (magicBalls, [])
  | S i =>
      match nth_error magicBalls i with
      | Some ball =>
          let (ball, stillAlive) := MagicBall.update ball in
          if stillAlive then
            let (balls, splats) :=
              updateMagicBallsLoop i (setAt i ball magicBalls) in
            (balls, MagicBall.createFluidEffect ball ++ splats)
          else updateMagicBallsLoop i (splice1 i magicBalls)
      | None => updateMagicBallsLoop i magicBalls (* not reached *)
      end
  end.

Definition updateMagicBalls `{JsMath} (magicBalls : list MagicBall.t)
  : list MagicBall.t * list Splat.t :=
  updateMagicBallsLoop (length magicBalls) magicBalls.

(** ** Finger ray *)

(** Arithmetic with the divisor checked: where JavaScript would answer
    [Infinity] or [NaN] for a division by zero, which no rational stands
    for, the computation stops with [DivisionByZero]. *)
Inductive checked (A : Type) : Type :=
| Ok (a : A)
| DivisionByZero.

Arguments Ok {A} a.
Arguments DivisionByZero {A}.

Definition bind {A B : Type} (c : checked A) (k : A -> checked B)
  : checked B :=
  match c with
  | Ok a => k a
  | DivisionByZero => DivisionByZero
  end.

Notation "x <- c ;; k" := (bind c (fun x => k))
  (at level 61, c at next level, right associativity).

Definition div (a b : Q) : checked Q :=
  if Qeq_bool b 0 then DivisionByZero else Ok (a / b).

(** The HSV to RGB conversion of the ray's colour. *)
Definition rayColor (hue saturation value : Q) : Color.t :=
  let c := value * saturation in
  let x_color := c * (1 - Math_abs (js_rem (hue * 6) 2 - 1)) in
  let m := value - c in
  let '(r, g, b) :=
    if Qlt_bool hue (1/6) then (c, x_color, 0)
    else if Qlt_bool hue (2/6) then (x_color, c, 0)
    else if Qlt_bool hue (3/6) then (0, c, x_color)
    else if Qlt_bool hue (4/6) then (0, x_color, c)
    else if Qlt_bool hue (5/6) then (x_color, 0, c)
    else (c, 0, x_color) in
  {| Color.r := r + m; Color.g := g + m; Color.b := b + m |}.

(** The loop [for (let i = 1; i <= numRayPoints; i++)] of
    [createFingerRay] over the indices still to visit; [drawn] counts the
    calls of [Math.random()] made so far.  An out-of-bounds point leaves
    the loop ([break]). *)
Fixpoint fingerRayLoop `{JsMath} (env : Env) (time : Q) (random : nat -> Q)
  (normalizedDirX normalizedDirY startX startY : Q)
  (indices : list nat) (drawn : nat) : checked (list Splat.t) :=
  match indices with
  | [] => Ok []
  | i :: indices =>
      let rayLength := 0.2 in
      let numRayPoints := 2 in
      let pixelRatio := pixelRatio env in
      t <- div (inject_Z (Z.of_nat i)) numRayPoints ;;
      let distance := rayLength * t in
      let jiggleAmount := Math_sin (time + inject_Z (Z.of_nat i)) * 0.005 in
      let perpX := - normalizedDirY in
      let perpY := normalizedDirX in
      stepX <- div (normalizedDirX * distance * pixelRatio)
                   (canvas_width env) ;;
      stepY <- div (normalizedDirY * distance * pixelRatio)
                   (canvas_height env) ;;
      let x := startX + stepX + (perpX * jiggleAmount) in
      let y := startY - stepY + (perpY * jiggleAmount) in
      if Qlt_bool x 0 || Qlt_bool 1 x || Qlt_bool y 0 || Qlt_bool 1 y
      then Ok []
      else
        let forceMultiplier := 20 in
        let dx := normalizedDirX * forceMultiplier in
        let dy := - normalizedDirY * forceMultiplier in
        let hue := random drawn in
        let saturation := 0.6 + random (drawn + 1)%nat * 0.4 in
        let value := 0.3 + random (drawn + 2)%nat * 0.2 in
        let color := rayColor hue saturation value in
        splats <- fingerRayLoop env time random normalizedDirX normalizedDirY
                                startX startY indices (drawn + 3)%nat ;;
        Ok ({| Splat.x := x; Splat.y := y; Splat.dx := dx; Splat.dy := dy;
               Splat.color := color |} :: splats)
  end.

(** [createFingerRay(fluidSimulation, landmarks, handCoords, isLeftHand)]:
    the splats it sends, in order.  [now] is the reading of [Date.now()],
    [random] the successive results of [Math.random()].  The two
    divisions inside [getPageCoords] are by [pixelRatio env], which is
    never zero. *)
Definition createFingerRay `{JsMath} `{HandUtils} (env : Env) (now : Z)
  (random : nat -> Q) (landmarks : list NormalizedLandmark.t)
  (handCoords : PageCoords) (isLeftHand : bool) : checked (list Splat.t) :=
  let pixelRatio := pixelRatio env in
  match nth_error landmarks INDEX_FINGER_TIP,
        nth_error landmarks INDEX_FINGER_MCP with
  | Some fingerTip, Some fingerMCP =>
      match getPageCoords env (Some (NormalizedLandmark.coords fingerTip)),
            getPageCoords env (Some (NormalizedLandmark.coords fingerMCP))
      with
      | Some tipPageCoords, Some mcpPageCoords =>
          let directionX := pageX tipPageCoords - pageX mcpPageCoords in
          let directionY := pageY tipPageCoords - pageY mcpPageCoords in
          let length :=
            Math_sqrt (directionX * directionX + directionY * directionY) in
          if Qeq_bool length 0 then Ok []
          else
            normalizedDirX <- div directionX length ;;
            normalizedDirY <- div directionY length ;;
            startX <- div (pageX tipPageCoords * pixelRatio)
                          (canvas_width env) ;;
            startYq <- div (pageY tipPageCoords * pixelRatio)
                           (canvas_height env) ;;
            let startY := 1.0 - startYq in
            let time := inject_Z now * 0.001 in
            fingerRayLoop env time random normalizedDirX normalizedDirY
                          startX startY (seq 1 2) 0
      | _, _ => Ok []
      end
  | _, _ => Ok []
  end.

(** ** Dispatcher *)

Definition GESTURE_MATCH : string := "Open_Palm".
Definition FIST_GESTURE : string := "Closed_Fist".
Definition POINTING_GESTURE : string := "Pointing_Up".
Definition THUMB_UP_GESTURE : string := "Thumb_Up".

Definition LEFT_HAND_EVENT_ID : Z := -10.
Definition RIGHT_HAND_EVENT_ID : Z := -11.

(** What [getHandData] hands to [processResults]: every level may be
    absent, as the optional chaining of the source expects. *)
Record Gesture : Type := { categoryName : string }.

Record Hand : Type := {
  gesture : option Gesture;
  landmarks : option (list NormalizedLandmark.t)
}.

Record HandData : Type := { left : option Hand; right : option Hand }.

Module Touch.
Record t : Type := {
  identifier : Z;
  pageX : Q;
  pageY : Q;
  screenX : Q;
  screenY : Q;
  clientX : Q;
  clientY : Q
}.
End Touch.

Record TouchEvent : Type := { type : string; touches : list Touch.t }.

(** Modelled from the spec: [createTouchEvent] of [touch-utils] is not
    part of the component; the event it builds carries the requested type
    and the ordered sequence of touch points it was given. *)
Definition createTouchEvent (type : string) (touches : list Touch.t)
  : TouchEvent :=
  {| type := type; touches := touches |}.

Definition getHandCentroid `{HandUtils}
  (landmarks : option (list NormalizedLandmark.t)) : option Coords2D.t :=
  match landmarks with
  | None => None
  | Some landmarks =>
      let wristCoords := nth_error landmarks WRIST in
      let indexMCPCoords := nth_error landmarks INDEX_FINGER_MCP in
      let pinkyMCPCoords := nth_error landmarks PINKY_FINGER_MCP in
      triangleCentroid wristCoords indexMCPCoords pinkyMCPCoords
  end.

Definition getTouch (pageX pageY : Q) (identifier : Z) : Touch.t :=
  {| Touch.identifier := identifier;
     Touch.pageX := pageX;
     Touch.pageY := pageY;
     Touch.screenX := pageX;
     Touch.screenY := pageY;
     Touch.clientX := pageX;
     Touch.clientY := pageY |}.

(** [getEvent(touches)]: the event, and [previousTouches] as the call
    leaves it. *)
Definition getEvent (previousTouches : option (list Touch.t))
  (touches : list Touch.t) : TouchEvent * list Touch.t :=
  let previousTouches :=
    match previousTouches with
    | None => []
    | Some previousTouches => previousTouches
    end in
  if negb (length previousTouches =? 0)%nat
     && (length touches <=? length previousTouches)%nat
  then (createTouchEvent "touchmove" touches, previousTouches)
  else (createTouchEvent "touchstart" touches, previousTouches).

(** The module-level variables [processResults] reads and writes. *)
Record Engine : Type := {
  magicBalls : list MagicBall.t;
  leftHandHistory : list HandVelocity.t;
  rightHandHistory : list HandVelocity.t;
  previousTouches : option (list Touch.t)
}.

(** What the engine starts from: [magicBalls = []], both histories [[]]
    and [previousTouches] not yet assigned. *)
Definition initialEngine : Engine :=
  {| magicBalls := [];
     leftHandHistory := [];
     rightHandHistory := [];
     previousTouches := None |}.

(** One frame: the hand data of the recognizer, and what the host would
    answer during the frame -- the reading of [Date.now()] and the
    results of [Math.random()] for the thumb-up block of each hand. *)
Record Frame : Type := {
  currentHandData : option HandData;
  nowLeft : Z;
  nowRight : Z;
  randomLeft : nat -> Q;
  randomRight : nat -> Q
}.

(** The calls [processResults] makes, on the effect generators and on the
    force-field surface. *)
Inductive Call : Type :=
| CreateWigglyBall (handCoords : PageCoords) (isLeftHand : bool)
| CreateBothPointingRaysToCenter (leftHandCoords rightHandCoords : PageCoords)
| CreateFingerRay (landmarks : list NormalizedLandmark.t)
                  (handCoords : PageCoords) (isLeftHand : bool)
| CreateBothHandsGlowEffect (leftHandCoords rightHandCoords : PageCoords)
| SendTouchStart (event : TouchEvent)
| SendTouchMove (event : TouchEvent)
| SendTouchEnd (event : TouchEvent)
| CreateSplat (splat : Splat.t).

(** [currentHandData?.left] and [currentHandData?.right] *)
Definition leftOf (data : option HandData) : option Hand :=
  match data with Some d => left d | None => None end.

Definition rightOf (data : option HandData) : option Hand :=
  match data with Some d => right d | None => None end.

(** [hand?.gesture?.categoryName === name] *)
Definition gestureIs (hand : option Hand) (name : string) : bool :=
  match hand with
  | Some {| gesture := Some g |} => String.eqb (categoryName g) name
  | _ => false
  end.

(** [hand?.landmarks] *)
Definition landmarksOf (hand : option Hand)
  : option (list NormalizedLandmark.t) :=
  match hand with Some h => landmarks h | None => None end.

(** [coords?.pageX && coords?.pageY]: the coordinates when both are
    truthy. *)
Definition withXY (coords : option PageCoords) : option PageCoords :=
  match coords with
  | Some c => if truthy (pageX c) && truthy (pageY c) then Some c else None
  | None => None
  end.

(** The anchor of a hand when its gesture is [name]: the variables
    [leftHandCoords], [leftFistCoords], ... of [processResults]. *)
Definition coordsWhen `{HandUtils} (env : Env) (hand : option Hand)
  (name : string) : option PageCoords :=
  if gestureIs hand name
  then getPageCoords env (getHandCentroid (landmarksOf hand))
  else None.

(** The touch pushed for an open palm. *)
Definition palmTouch (coords : option PageCoords) (identifier : Z)
  : list Touch.t :=
  match withXY coords with
  | Some c => [getTouch (pageX c) (pageY c) identifier]
  | None => []
  end.

(** The thumb-up block of one hand: record the sample, look for a throw,
    and on a throw spawn a ball and clear the history. *)
Definition thumbUp `{JsMath} (env : Env) (now : Z) (random : nat -> Q)
  (thumbUpCoords : option PageCoords) (isLeftHand : bool)
  (history : list HandVelocity.t) (magicBalls : list MagicBall.t)
  : list HandVelocity.t * list MagicBall.t :=
  match thumbUpCoords with
  | Some coords =>
      let history := updateHandVelocityHistory env now history coords in
      match detectThrowingMotion history with
      | Some throwVelocity =>
          ([], throwMagicBall env random magicBalls coords throwVelocity
                              isLeftHand)
      | None => (history, magicBalls)
      end
  | None => (history, magicBalls)
  end.

(** The three-way test on [event.type]. *)
Definition sendTouch (event : TouchEvent) : list Call :=
  if String.eqb (type event) "touchstart" then [SendTouchStart event]
  else if String.eqb (type event) "touchmove" then [SendTouchMove event]
  else if String.eqb (type event) "touchend" then [SendTouchEnd event]
  else [].

(** The touches of the frame: one per open palm whose anchor is
    available, left hand first. *)
Definition palmTouches `{HandUtils} (env : Env)
  (leftHand rightHand : option Hand) : list Touch.t :=
  palmTouch (coordsWhen env leftHand GESTURE_MATCH) LEFT_HAND_EVENT_ID
  ++ palmTouch (coordsWhen env rightHand GESTURE_MATCH) RIGHT_HAND_EVENT_ID.

(** "Handle different gesture combinations": a wiggly ball per fist. *)
Definition dispatchFists (leftFistCoords rightFistCoords : option PageCoords)
  : list Call :=
  match withXY leftFistCoords with
  | Some c => [CreateWigglyBall c true]
  | None => []
  end
  ++
  match withXY rightFistCoords with
  | Some c => [CreateWigglyBall c false]
  | None => []
  end.

(** "Handle pointing gestures - create rays": dual rays to the centre
    when both hands point, single-hand rays otherwise. *)
Definition dispatchPointing
  (leftPointingCoords rightPointingCoords : option PageCoords)
  (leftLandmarks rightLandmarks : option (list NormalizedLandmark.t))
  : list Call :=
  match withXY leftPointingCoords, withXY rightPointingCoords with
  | Some l, Some r => [CreateBothPointingRaysToCenter l r]
  | l, r =>
      match l, leftLandmarks with
      | Some c, Some landmarks => [CreateFingerRay landmarks c true]
      | _, _ => []
      end
      ++
      match r, rightLandmarks with
      | Some c, Some landmarks => [CreateFingerRay landmarks c false]
      | _, _ => []
      end
  end.

(** "If both hands are open palm, create continuous glow": otherwise
    regular touch handling. *)
Definition dispatchPalms (leftHandCoords rightHandCoords : option PageCoords)
  (previousTouches : option (list Touch.t)) (touches : list Touch.t)
  : list Call :=
  match withXY leftHandCoords, withXY rightHandCoords with
  | Some l, Some r => [CreateBothHandsGlowEffect l r]
  | _, _ =>
      if (0 <? length touches)%nat
      then sendTouch (fst (getEvent previousTouches touches))
      else []
  end.

Definition processResults `{JsMath} `{HandUtils} (env : Env)
  (engine : Engine) (frame : Frame) : Engine * list Call :=
  let leftHand := leftOf (currentHandData frame) in
  let rightHand := rightOf (currentHandData frame) in
  (* Check for open palm gestures *)
  let leftHandCoords := coordsWhen env leftHand GESTURE_MATCH in
  let rightHandCoords := coordsWhen env rightHand GESTURE_MATCH in
  let touches := palmTouches env leftHand rightHand in
  (* Check for fist gestures *)
  let leftFistCoords := coordsWhen env leftHand FIST_GESTURE in
  let rightFistCoords := coordsWhen env rightHand FIST_GESTURE in
  (* Check for pointing gestures *)
  let leftPointingCoords := coordsWhen env leftHand POINTING_GESTURE in
  let rightPointingCoords := coordsWhen env rightHand POINTING_GESTURE in
  (* Check for thumb up gestures (for throwing magic balls) *)
  let leftThumbUpCoords := coordsWhen env leftHand THUMB_UP_GESTURE in
  let afterLeft :=
    thumbUp env (nowLeft frame) (randomLeft frame) leftThumbUpCoords true
            (leftHandHistory engine) (magicBalls engine) in
  let rightThumbUpCoords := coordsWhen env rightHand THUMB_UP_GESTURE in
  let afterRight :=
    thumbUp env (nowRight frame) (randomRight frame) rightThumbUpCoords false
            (rightHandHistory engine) (snd afterLeft) in
  (* Handle different gesture combinations *)
  let fists := dispatchFists leftFistCoords rightFistCoords in
  let rays :=
    dispatchPointing leftPointingCoords rightPointingCoords
                     (landmarksOf leftHand) (landmarksOf rightHand) in
  let palms :=
    dispatchPalms leftHandCoords rightHandCoords (previousTouches engine)
                  touches in
  (* Update magic balls physics and effects *)
  let updated := updateMagicBalls (snd afterRight) in
  ({| magicBalls := fst updated;
      leftHandHistory := fst afterLeft;
      rightHandHistory := fst afterRight;
      previousTouches := Some touches |},
   fists ++ rays ++ palms ++ map CreateSplat (snd updated)).

(** ** Runs *)

(** A run of record calls on one history, keeping the history after each
    call. *)
Fixpoint recordAll (env : Env) (history : list HandVelocity.t)
  (calls : list (Z * PageCoords)) : list (list HandVelocity.t) :=
  match calls with
  | [] => []
  | (now, coords) :: calls' =>
      let history' := updateHandVelocityHistory env now history coords in
      history' :: recordAll env history' calls'
  end.

(** A run of frames, keeping the engine after each frame and the calls
    the frame made. *)
Fixpoint runFrames `{JsMath} `{HandUtils} (env : Env) (engine : Engine)
  (frames : list Frame) : list (Engine * list Call) :=
  match frames with
  | [] => []
  | frame :: frames' =>
      let step := processResults env engine frame in
      step :: runFrames env (fst step) frames'
  end.

(** The bounds of the three buffers of the engine. *)
Definition boundedEngine (engine : Engine) : Prop :=
  (length (leftHandHistory engine) <= VELOCITY_HISTORY_SIZE)%nat
  /\ (length (rightHandHistory engine) <= VELOCITY_HISTORY_SIZE)%nat
  /\ (length (magicBalls engine) <= 10)%nat.

(** The projectile collection under a sequence of spawns and ticks,
    keeping the collection after each operation. *)
Inductive BallOp : Type :=
| Throw (random : nat -> Q) (handCoords : PageCoords) (velocity : Velocity.t)
        (isLeftHand : bool)
| Tick.

Definition applyBallOp `{JsMath} (env : Env) (magicBalls : list MagicBall.t)
  (op : BallOp) : list MagicBall.t :=
  match op with
  | Throw random handCoords velocity isLeftHand =>
      throwMagicBall env random magicBalls handCoords velocity isLeftHand
  | Tick => fst (updateMagicBalls magicBalls)
  end.

Fixpoint runBalls `{JsMath} (env : Env) (magicBalls : list MagicBall.t)
  (ops : list BallOp) : list (list MagicBall.t) :=
  match ops with
  | [] => []
  | op :: ops' =>
      let magicBalls' := applyBallOp env magicBalls op in
      magicBalls' :: runBalls env magicBalls' ops'
  end.

(** ** Vocabulary of the specification *)

(** One ball across one tick: the ball [update()] leaves, and whether it
    stays in the collection. *)
Definition advance (ball : MagicBall.t) : MagicBall.t :=
  fst (MagicBall.update ball).

Definition survives (ball : MagicBall.t) : bool :=
  snd (MagicBall.update ball).

(** The collection after one tick, told ball by ball. *)
Definition tickBalls (magicBalls : list MagicBall.t) : list MagicBall.t :=
  map advance (filter survives magicBalls).

(** A ball as the engine keeps them: between 1 and 120 ticks left, out
    of 120. *)
Definition liveBall (ball : MagicBall.t) : Prop :=
  (1 <= MagicBall.life ball <= 120)%Z /\ MagicBall.maxLife ball = 120%Z.

(** The ball a throw creates. *)
Definition thrownBall (env : Env) (random : nat -> Q)
  (handCoords : PageCoords) (velocity : Velocity.t) : MagicBall.t :=
  MagicBall.new (normalizedX env handCoords) (normalizedY env handCoords)
    (Velocity.vx velocity) (Velocity.vy velocity)
    {| Color.r := 0.3 + random 1%nat * 0.7;
       Color.g := 0.3 + random 2%nat * 0.7;
       Color.b := 0.3 + random 3%nat * 0.7 |}.

(** [k] ticks of the engine on a collection, with no spawn in between. *)
Definition ticks `{JsMath} (k : nat) (magicBalls : list MagicBall.t)
  : list MagicBall.t :=
  Nat.iter k (fun balls => fst (updateMagicBalls balls)) magicBalls.

(** The words of the throw detector: consecutive samples of a history
    (earlier, later), their time delta in seconds, the pairs that count,
    the velocity of a pair, and the average over the pairs that count. *)
Definition consecutivePairs (history : list HandVelocity.t)
  : list (HandVelocity.t * HandVelocity.t) :=
  combine history (tl history).

Definition timeDelta (pair : HandVelocity.t * HandVelocity.t) : Q :=
  inject_Z (HandVelocity.timestamp (snd pair)
            - HandVelocity.timestamp (fst pair)) / 1000.

Definition validPair (pair : HandVelocity.t * HandVelocity.t) : bool :=
  Qlt_bool 0 (timeDelta pair) && Qlt_bool (timeDelta pair) 0.1.

Definition pairVelocity (pair : HandVelocity.t * HandVelocity.t)
  : Velocity.t :=
  {| Velocity.vx :=
       (HandVelocity.x (snd pair) - HandVelocity.x (fst pair))
       / timeDelta pair;
     Velocity.vy :=
       (HandVelocity.y (snd pair) - HandVelocity.y (fst pair))
       / timeDelta pair |}.

Definition validVelocities (history : list HandVelocity.t)
  : list Velocity.t :=
  map pairVelocity (filter validPair (consecutivePairs history)).

(** The sum of a list, added up from the left starting at 0. *)
Definition Qsum (l : list Q) : Q := fold_left Qplus l 0.

Definition averageVelocity (history : list HandVelocity.t) : Velocity.t :=
  let velocities := validVelocities history in
  let count := inject_Z (Z.of_nat (length velocities)) in
  {| Velocity.vx := Qsum (map Velocity.vx velocities) / count;
     Velocity.vy := Qsum (map Velocity.vy velocities) / count |}.

Definition magnitude `{JsMath} (v : Velocity.t) : Q :=
  Math_sqrt (Velocity.vx v * Velocity.vx v + Velocity.vy v * Velocity.vy v).

(** One round of the loop on a pair of samples. *)
Definition pairStep (acc : ThrowSums)
  (pair : HandVelocity.t * HandVelocity.t) : ThrowSums :=
  if validPair pair then
    {| avgVx := avgVx acc + Velocity.vx (pairVelocity pair);
       avgVy := avgVy acc + Velocity.vy (pairVelocity pair);
       validSamples := S (validSamples acc) |}
  else acc.

(** The words of the coordinate mapper: [toNormalized] is the conversion
    the component inlines, [toPage] is [getPageCoords]. *)
Definition toNormalized (env : Env) (pagePoint : PageCoords) : Coords2D.t :=
  {| Coords2D.x := normalizedX env pagePoint;
     Coords2D.y := normalizedY env pagePoint |}.

Definition toPage (env : Env) (normalizedPoint : Coords2D.t)
  : option PageCoords :=
  getPageCoords env (Some normalizedPoint).

(** A page point strictly inside the canvas. *)
Definition interior (env : Env) (pagePoint : PageCoords) : Prop :=
  0 < normalizedX env pagePoint < 1 /\ 0 < normalizedY env pagePoint < 1.

(** The round trip as the specification states it, in both coordinates. *)
Definition specRoundTrip (env : Env) (pagePoint : PageCoords) : Prop :=
  interior env pagePoint ->
  exists back,
    toPage env (toNormalized env pagePoint) = Some back
    /\ pageX back == pageX pagePoint
    /\ pageY back == pageY pagePoint.

(** The words of the projectile trail: the angle and the point of the
    [i]-th impulse, the bounds test, and the impulse sent at a point with
    a given colour. *)
Definition trailAngle `{JsMath} (i : nat) : Q :=
  (inject_Z (Z.of_nat i) / 3) * Math_PI * 2.

Definition trailPoint `{JsMath} (ball : MagicBall.t) (i : nat) : Q * Q :=
  (MagicBall.x ball + Math_cos (trailAngle i) * 0.01,
   MagicBall.y ball + Math_sin (trailAngle i) * 0.01).

Definition inBounds (point : Q * Q) : bool :=
  Qle_bool 0 (fst point) && Qle_bool (fst point) 1
  && Qle_bool 0 (snd point) && Qle_bool (snd point) 1.

Definition scaleColor (color : Color.t) (opacity gain : Q) : Color.t :=
  {| Color.r := Color.r color * opacity * gain;
     Color.g := Color.g color * opacity * gain;
     Color.b := Color.b color * opacity * gain |}.

Definition lifeFraction (ball : MagicBall.t) : Q :=
  inject_Z (MagicBall.life ball) / inject_Z (MagicBall.maxLife ball).

Definition trailSplat (ball : MagicBall.t) (color : Color.t) (point : Q * Q)
  : Splat.t :=
  {| Splat.x := fst point;
     Splat.y := snd point;
     Splat.dx := MagicBall.vx ball * 20;
     Splat.dy := MagicBall.vy ball * 20;
     Splat.color := color |}.

(** The colour of the trail as the specification states it: the base
    colour scaled by [life / maxLife]. *)
Definition specTrailColor `{JsMath} (ball : MagicBall.t) : Prop :=
  Forall
    (fun splat =>
       Color.r (Splat.color splat)
         == Color.r (MagicBall.color ball) * lifeFraction ball
       /\ Color.g (Splat.color splat)
         == Color.g (MagicBall.color ball) * lifeFraction ball
       /\ Color.b (Splat.color splat)
         == Color.b (MagicBall.color ball) * lifeFraction ball)
    (MagicBall.createFluidEffect ball).

(** The words of the dispatcher: the anchor of a hand when its
    coordinates are available, and the calls that concern pointing. *)
Definition anchor `{HandUtils} (env : Env) (hand : option Hand)
  : option PageCoords :=
  withXY (getPageCoords env (getHandCentroid (landmarksOf hand))).

Definition isPointingCall (call : Call) : bool :=
  match call with
  | CreateBothPointingRaysToCenter _ _ => true
  | CreateFingerRay _ _ _ => true
  | _ => false
  end.

(** The touch list [previousTouches] stands for when [getEvent] runs. *)
Definition previousList (previousTouches : option (list Touch.t))
  : list Touch.t :=
  match previousTouches with
  | None => []
  | Some previousTouches => previousTouches
  end.

(** The calls on the touch ingestion of the force-field surface. *)
Definition isTouchCall (call : Call) : bool :=
  match call with
  | SendTouchStart _ => true
  | SendTouchMove _ => true
  | SendTouchEnd _ => true
  | _ => false
  end.

(** The test of [getEvent]: the previous touch list is not empty and at
    least as long as the current one. *)
Definition continuesTouch (previous current : list Touch.t) : Prop :=
  previous <> [] /\ (length current <= length previous)%nat.

(** ** The other effect generators *)

(** [createBothHandsGlowEffect(fluidSimulation, leftHandCoords,
    rightHandCoords)]: the splats it sends, in order. *)
Definition createBothHandsGlowEffect (env : Env)
  (leftHandCoords rightHandCoords : PageCoords) : list Splat.t :=
  let leftX := normalizedX env leftHandCoords in
  let leftY := normalizedY env leftHandCoords in
  let rightX := normalizedX env rightHandCoords in
  let rightY := normalizedY env rightHandCoords in
  let centerNormX := 0.5 in
  let centerNormY := 0.5 in
  let numSplats := 2 in
  flat_map
    (fun i : nat =>
       let t := (inject_Z (Z.of_nat i) + 1) / (numSplats + 1) in
       let leftInterpX := leftX + (centerNormX - leftX) * t in
       let leftInterpY := leftY + (centerNormY - leftY) * t in
       let leftDx := (centerNormX - leftX) * 200 in
       let leftDy := (centerNormY - leftY) * 200 in
       let leftColor :=
         {| Color.r := 0.05; Color.g := 0.15; Color.b := 0.3 |} in
       let rightInterpX := rightX + (centerNormX - rightX) * t in
       let rightInterpY := rightY + (centerNormY - rightY) * t in
       let rightDx := (centerNormX - rightX) * 200 in
       let rightDy := (centerNormY - rightY) * 200 in
       let rightColor :=
         {| Color.r := 0.3; Color.g := 0.1; Color.b := 0.05 |} in
       [ {| Splat.x := leftInterpX; Splat.y := leftInterpY;
            Splat.dx := leftDx; Splat.dy := leftDy;
            Splat.color := leftColor |};
         {| Splat.x := rightInterpX; Splat.y := rightInterpY;
            Splat.dx := rightDx; Splat.dy := rightDy;
            Splat.color := rightColor |} ])
    (seq 0 2).

(** One of the two rays of [createBothPointingRaysToCenter]: the loop
    [for (let i = 1; i <= numRayPoints; i++)] of the left hand, or of the
    right hand ([isRight]), over the indices still to visit.  The two
    loops of the source differ in the phase of the jiggle and in the
    colour; [drawn] counts the calls of [Math.random()] made so far and is
    returned with the splats.  An out-of-bounds point is skipped. *)
Fixpoint pointingRayLoop `{JsMath} (isRight : bool) (time : Q)
  (random : nat -> Q) (handX handY normX normY length : Q)
  (indices : list nat) (drawn : nat) : list Splat.t * nat :=
  match indices with
  | [] => ([], drawn)
  | i :: indices =>
      let numRayPoints := 3 in
      let t := inject_Z (Z.of_nat i) / (numRayPoints + 1) in
      let distance := length * t in
      let jiggle :=
        if isRight
        then Math_sin (time + inject_Z (Z.of_nat i) + Math_PI) * 0.008
        else Math_sin (time + inject_Z (Z.of_nat i)) * 0.008 in
      let perpX := - normY in
      let perpY := normX in
      let x := handX + normX * distance + perpX * jiggle in
      let y := handY + normY * distance + perpY * jiggle in
      if Qle_bool 0 x && Qle_bool x 1 && Qle_bool 0 y && Qle_bool y 1 then
        let dx := normX * 40 in
        let dy := normY * 40 in
        let hue := random drawn in
        let color :=
          if isRight
          then {| Color.r := 0.3 + random (drawn + 1)%nat * 0.3;
                  Color.g := 0.2 + random (drawn + 2)%nat * 0.2;
                  Color.b := 0.1 + random (drawn + 3)%nat * 0.2 |}
          else {| Color.r := 0.2 + random (drawn + 1)%nat * 0.3;
                  Color.g := 0.1 + random (drawn + 2)%nat * 0.2;
                  Color.b := 0.3 + random (drawn + 3)%nat * 0.3 |} in
        let rest :=
          pointingRayLoop isRight time random handX handY normX normY length
                          indices (drawn + 4)%nat in
        ({| Splat.x := x; Splat.y := y; Splat.dx := dx; Splat.dy := dy;
            Splat.color := color |} :: fst rest,
         snd rest)
      else
        pointingRayLoop isRight time random handX handY normX normY length
                        indices drawn
  end.

(** The ray of one hand: the block guarded by [if (leftLength > 0)], or
    by [if (rightLength > 0)]. *)
Definition pointingRay `{JsMath} (isRight : bool) (time : Q)
  (random : nat -> Q) (handX handY : Q) (drawn : nat)
  : list Splat.t * nat :=
  let centerX := 0.5 in
  let centerY := 0.5 in
  let dirX := centerX - handX in
  let dirY := centerY - handY in
  let length := Math_sqrt (dirX * dirX + dirY * dirY) in
  if Qlt_bool 0 length then
    let normX := dirX / length in
    let normY := dirY / length in
    pointingRayLoop isRight time random handX handY normX normY length
                    (seq 1 3) drawn
  else ([], drawn).

(** [createBothPointingRaysToCenter(fluidSimulation, leftHandCoords,
    rightHandCoords)]: the splats it sends, in order.  [now] is the
    reading of [Date.now()], [random] the successive results of
    [Math.random()]. *)
Definition createBothPointingRaysToCenter `{JsMath} (env : Env) (now : Z)
  (random : nat -> Q) (leftHandCoords rightHandCoords : PageCoords)
  : list Splat.t :=
  let leftX := normalizedX env leftHandCoords in
  let leftY := normalizedY env leftHandCoords in
  let rightX := normalizedX env rightHandCoords in
  let rightY := normalizedY env rightHandCoords in
  let time := inject_Z now * 0.002 in
  let leftRay := pointingRay false time random leftX leftY 0 in
  let rightRay := pointingRay true time random rightX rightY (snd leftRay) in
  fst leftRay ++ fst rightRay.

(** [createWigglyBall(fluidSimulation, handCoords, isLeftHand)]: the
    splats it sends, in order.  [now] is the reading of [Date.now()]. *)
Definition createWigglyBall `{JsMath} (env : Env) (now : Z)
  (handCoords : PageCoords) (isLeftHand : bool) : list Splat.t :=
  let centerX := normalizedX env handCoords in
  let centerY := normalizedY env handCoords in
  let time := inject_Z now * 0.003 in
  let numPoints := 6 in
  let baseRadius := 0.04 in
  map
    (fun i : nat =>
       let angle := (inject_Z (Z.of_nat i) / numPoints) * Math_PI * 2 in
       let wiggle := Math_sin (time + angle * 2) * 0.008 in
       let radius := baseRadius + wiggle in
       let x := centerX + Math_cos angle * radius in
       let y := centerY + Math_sin angle * radius in
       let dx := (centerX - x) * 30 in
       let dy := (centerY - y) * 30 in
       let color :=
         if isLeftHand
         then {| Color.r := 0.08; Color.g := 0.02; Color.b := 0.12 |}
         else {| Color.r := 0.12; Color.g := 0.06; Color.b := 0.02 |} in
       {| Splat.x := x; Splat.y := y; Splat.dx := dx; Splat.dy := dy;
          Splat.color := color |})
    (seq 0 6).

(** The impulse of the glow for the hand at [(handX, handY)], a fraction
    [t] of the way to the centre. *)
Definition glowSplat (handX handY t : Q) (color : Color.t) : Splat.t :=
  {| Splat.x := handX + (0.5 - handX) * t;
     Splat.y := handY + (0.5 - handY) * t;
     Splat.dx := (0.5 - handX) * 200;
     Splat.dy := (0.5 - handY) * 200;
     Splat.color := color |}.

(** A splat whose point lies in [0,1] x [0,1]. *)
Definition splatInBounds (splat : Splat.t) : Prop :=
  0 <= Splat.x splat <= 1 /\ 0 <= Splat.y splat <= 1.

(** A point of simulation space in [0,1] x [0,1]. *)
Definition inUnitSquare (x y : Q) : Prop :=
  0 <= x <= 1 /\ 0 <= y <= 1.

(** [k] updates of one ball, whatever its life. *)
Definition advanceBy (k : nat) (ball : MagicBall.t) : MagicBall.t :=
  Nat.iter k advance ball.

(** ** A host to run the model on

    Rational stand-ins for the irrational functions of [Math], good to a
    few decimals near the origin, and the hand schema of the recognizer
    (wrist 0, index base 5, index tip 8, pinky base 17) with the centroid
    as the arithmetic mean.  The theorems below hold for every host;
    these instances only serve to evaluate the model on concrete
    inputs. *)

Definition approxSqrt (q : Q) : Q :=
  if Qle_bool q 0 then 0
  else inject_Z (Z.sqrt (Qnum q * 1000000000000 / Zpos (Qden q))) / 1000000.

Definition approxSin (q : Q) : Q :=
  let s := q * q in
  q * (1 - s / 6 * (1 - s / 20 * (1 - s / 42 * (1 - s / 72 *
      (1 - s / 110 * (1 - s / 156)))))).

Definition approxCos (q : Q) : Q :=
  let s := q * q in
  1 - s / 2 * (1 - s / 12 * (1 - s / 30 * (1 - s / 56 *
      (1 - s / 90 * (1 - s / 132 * (1 - s / 182)))))).

#[export] Instance approxMath : JsMath := {
  Math_sqrt := approxSqrt;
  Math_sin := approxSin;
  Math_cos := approxCos;
  Math_PI := 3.141592653589793
}.

(** Modelled from the spec: [triangleCentroid] of [math-utils] is not
    part of the component; the centroid of a hand is the arithmetic mean
    of the three landmarks (depth is ignored downstream). *)
Definition meanOfThree (a b c : NormalizedLandmark.t) : Coords2D.t :=
  {| Coords2D.x :=
       (NormalizedLandmark.x a + NormalizedLandmark.x b
        + NormalizedLandmark.x c) / 3;
     Coords2D.y :=
       (NormalizedLandmark.y a + NormalizedLandmark.y b
        + NormalizedLandmark.y c) / 3 |}.

#[export] Instance mediapipeHands : HandUtils := {
  WRIST := 0;
  INDEX_FINGER_MCP := 5;
  INDEX_FINGER_TIP := 8;
  PINKY_FINGER_MCP := 17;
  triangleCentroid := fun a b c =>
    match a, b, c with
    | Some a, Some b, Some c => Some (meanOfThree a b c)
    | _, _, _ => None
    end
}.

(** A canvas of 800 by 600 device pixels at pixel ratio 1. *)
Definition canvas800x600 : Env :=
  {| canvas_width := 800; canvas_height := 600; devicePixelRatio := 1 |}.

(** Three samples 30 ms apart moving right by 0.45 each: 15 units per
    second. *)
Definition fastSwipe : list HandVelocity.t :=
  [ {| HandVelocity.x := 0;    HandVelocity.y := 0.5;
       HandVelocity.timestamp := 1000 |};
    {| HandVelocity.x := 0.45; HandVelocity.y := 0.5;
       HandVelocity.timestamp := 1030 |};
    {| HandVelocity.x := 0.9;  HandVelocity.y := 0.5;
       HandVelocity.timestamp := 1060 |} ].

(** Four samples from (0.2, 0.5) to (0.6, 0.5) over 80 ms: 5 units per
    second. *)
Definition slowSwipe : list HandVelocity.t :=
  [ {| HandVelocity.x := 0.2; HandVelocity.y := 0.5;
       HandVelocity.timestamp := 1000 |};
    {| HandVelocity.x := 0.3; HandVelocity.y := 0.5;
       HandVelocity.timestamp := 1020 |};
    {| HandVelocity.x := 0.4; HandVelocity.y := 0.5;
       HandVelocity.timestamp := 1050 |};
    {| HandVelocity.x := 0.6; HandVelocity.y := 0.5;
       HandVelocity.timestamp := 1080 |} ].

(** A white ball thrown sideways from the middle of the canvas at 10
    units per second, and the same ball one tick later. *)
Definition sidewaysBall : MagicBall.t :=
  MagicBall.new 0.5 0.5 10 0 {| Color.r := 1; Color.g := 1; Color.b := 1 |}.

Definition tickedBall : MagicBall.t := advance sidewaysBall.

(** A hand of 21 landmarks, all at [(x, y)] but the index fingertip,
    which is at [(tipX, tipY)]. *)
Definition handAt (x y tipX tipY : Q) : list NormalizedLandmark.t :=
  map (fun i : nat =>
         if (i =? 8)%nat
         then {| NormalizedLandmark.x := tipX; NormalizedLandmark.y := tipY;
                 NormalizedLandmark.z := 0 |}
         else {| NormalizedLandmark.x := x; NormalizedLandmark.y := y;
                 NormalizedLandmark.z := 0 |})
      (seq 0 21).

(** A hand with a gesture and landmarks, and a frame of two hands. *)
Definition handWith (name : string) (landmarks : list NormalizedLandmark.t)
  : Hand :=
  {| gesture := Some {| categoryName := name |};
     landmarks := Some landmarks |}.

Definition frameOf (leftHand rightHand : option Hand) : Frame :=
  {| currentHandData := Some {| left := leftHand; right := rightHand |};
     nowLeft := 0; nowRight := 0;
     randomLeft := fun _ => 0.5; randomRight := fun _ => 0.5 |}.

(** Frames for the examples: hands in the left and right half of an 800
    by 600 canvas, index finger up. *)
Definition leftPointing : Hand :=
  handWith "Pointing_Up" (handAt 0.25 0.5 0.25 0.4).

Definition rightPointing : Hand :=
  handWith "Pointing_Up" (handAt 0.75 0.5 0.75 0.4).

Definition rightFist : Hand :=
  handWith "Closed_Fist" (handAt 0.75 0.5 0.75 0.5).

Definition leftPalm : Hand :=
  handWith "Open_Palm" (handAt 0.25 0.5 0.25 0.4).

(** A ball about to cross the right wall: at 0.95, moving right at 10
    units per second. *)
Definition wallBall : MagicBall.t :=
  MagicBall.new 0.95 0.5 10 0 {| Color.r := 1; Color.g := 1; Color.b := 1 |}.

(** A frame of the recognizer with no hand data at all. *)
Definition emptyFrame : Frame :=
  {| currentHandData := None;
     nowLeft := 0; nowRight := 0;
     randomLeft := fun _ => 0.5; randomRight := fun _ => 0.5 |}.

Definition leftFist : Hand :=
  handWith "Closed_Fist" (handAt 0.25 0.5 0.25 0.5).

Definition rightPalm : Hand :=
  handWith "Open_Palm" (handAt 0.75 0.5 0.75 0.4).

(** An engine two samples into a fast swipe of the left hand, and the
    thumb-up frame that brings the third sample, at (0.9, 0.5) of
    simulation space, 30 ms later. *)
Definition swipingEngine : Engine :=
  {| magicBalls := [];
     leftHandHistory := firstn 2 fastSwipe;
     rightHandHistory := [];
     previousTouches := None |}.

Definition swipeFrame : Frame :=
  {| currentHandData :=
       Some {| left := Some (handWith "Thumb_Up" (handAt 0.9 0.5 0.9 0.5));
               right := None |};
     nowLeft := 1060; nowRight := 1060;
     randomLeft := fun _ => 0.5; randomRight := fun _ => 0.5 |}.

(** The milliseconds between the two samples of a pair. *)
Definition millisBetween (pair : HandVelocity.t * HandVelocity.t) : Z :=
  (HandVelocity.timestamp (snd pair) - HandVelocity.timestamp (fst pair))%Z.

(** Three samples 100 ms apart, moving right by 0.45 each. *)
Definition sparseSwipe : list HandVelocity.t :=
  [ {| HandVelocity.x := 0;    HandVelocity.y := 0.5;
       HandVelocity.timestamp := 1000 |};
    {| HandVelocity.x := 0.45; HandVelocity.y := 0.5;
       HandVelocity.timestamp := 1100 |};
    {| HandVelocity.x := 0.9;  HandVelocity.y := 0.5;
       HandVelocity.timestamp := 1200 |} ].

(** Four samples 20 ms apart of a hand that does not move. *)
Definition stillHand : list HandVelocity.t :=
  map (fun t => {| HandVelocity.x := 0.3; HandVelocity.y := 0.6;
                   HandVelocity.timestamp := t |})
      [1000; 1020; 1040; 1060]%Z.

(** * Part II: verification *)

(** Case analysis on every test of the goal. *)
Ltac case_tests :=
  repeat match goal with
         | |- context [if ?c then _ else _] => destruct c
         end.

(** ** Arrays: what the shifting loop computes *)

Lemma shiftWhileLonger_skipn {A : Type} (limit : nat) (arr : list A) :
  shiftWhileLonger limit arr = skipn (length arr - limit) arr.
Proof.
  induction arr as [|a rest IH]; [reflexivity|].
  cbn [shiftWhileLonger].
  destruct (Nat.ltb_spec limit (length (a :: rest))) as [Hlt|Hge].
  - rewrite IH. cbn [length] in *.
    replace (S (length rest) - limit)%nat with (S (length rest - limit))
      by lia.
    reflexivity.
  - replace (length (a :: rest) - limit)%nat with 0%nat by lia.
    reflexivity.
Qed.

Lemma shiftWhileLonger_length {A : Type} (limit : nat) (arr : list A) :
  (length (shiftWhileLonger limit arr) <= limit)%nat.
Proof.
  rewrite shiftWhileLonger_skipn, length_skipn. lia.
Qed.

(** ** Velocity tracker: the history buffer *)

Lemma recordAll_bounded (env : Env) (calls : list (Z * PageCoords)) :
  forall history,
    Forall (fun h => (length h <= VELOCITY_HISTORY_SIZE)%nat)
           (recordAll env history calls).
Proof.
  induction calls as [|[now coords] calls IH]; intros history; cbn.
  - constructor.
  - constructor; [apply shiftWhileLonger_length | apply IH].
Qed.

(** ** Projectile engine: the backwards loop, ball by ball *)

Lemma nth_error_middle {A : Type} (pre post : list A) (a : A) :
  nth_error (pre ++ a :: post) (length pre) = Some a.
Proof.
  rewrite nth_error_app2 by lia. rewrite Nat.sub_diag. reflexivity.
Qed.

Lemma setAt_middle {A : Type} (pre post : list A) (a v : A) :
  setAt (length pre) v (pre ++ a :: post) = pre ++ v :: post.
Proof.
  unfold setAt.
  rewrite firstn_app, firstn_all, Nat.sub_diag, firstn_O, app_nil_r.
  rewrite skipn_app, skipn_all2 by lia.
  replace (S (length pre) - length pre)%nat with 1%nat by lia.
  reflexivity.
Qed.

Lemma splice1_middle {A : Type} (pre post : list A) (a : A) :
  splice1 (length pre) (pre ++ a :: post) = pre ++ post.
Proof.
  unfold splice1.
  rewrite firstn_app, firstn_all, Nat.sub_diag, firstn_O, app_nil_r.
  rewrite skipn_app, skipn_all2 by lia.
  replace (S (length pre) - length pre)%nat with 1%nat by lia.
  reflexivity.
Qed.

Lemma tickBalls_app (l1 l2 : list MagicBall.t) :
  tickBalls (l1 ++ l2) = tickBalls l1 ++ tickBalls l2.
Proof.
  unfold tickBalls. rewrite filter_app, map_app. reflexivity.
Qed.

Lemma tickBalls_one (ball : MagicBall.t) :
  tickBalls [ball] = if survives ball then [advance ball] else [].
Proof.
  unfold tickBalls. cbn [filter]. destruct (survives ball); reflexivity.
Qed.

Lemma updateMagicBallsLoop_spec `{JsMath} (pre : list MagicBall.t) :
  forall post,
    updateMagicBallsLoop (length pre) (pre ++ post)
    = (tickBalls pre ++ post,
       flat_map MagicBall.createFluidEffect (rev (tickBalls pre))).
Proof.
  induction pre as [|ball pre IH] using rev_ind; intros post.
  - reflexivity.
  - rewrite length_app, Nat.add_comm. cbn [length Nat.add].
    rewrite <- app_assoc. cbn [app updateMagicBallsLoop].
    rewrite nth_error_middle.
    rewrite tickBalls_app, tickBalls_one.
    unfold survives, advance.
    destruct (MagicBall.update ball) as [ball' stillAlive] eqn:Hupd.
    cbn [fst snd]. destruct stillAlive.
    + rewrite setAt_middle, IH.
      rewrite rev_app_distr. cbn [rev app flat_map].
      rewrite <- app_assoc. reflexivity.
    + rewrite splice1_middle, IH.
      rewrite !app_nil_r. reflexivity.
Qed.

Lemma updateMagicBalls_spec `{JsMath} (magicBalls : list MagicBall.t) :
  updateMagicBalls magicBalls
  = (tickBalls magicBalls,
     flat_map MagicBall.createFluidEffect (rev (tickBalls magicBalls))).
Proof.
  unfold updateMagicBalls.
  rewrite <- (app_nil_r magicBalls) at 2.
  rewrite updateMagicBallsLoop_spec, app_nil_r. reflexivity.
Qed.

Lemma tickBalls_length (magicBalls : list MagicBall.t) :
  (length (tickBalls magicBalls) <= length magicBalls)%nat.
Proof.
  unfold tickBalls. rewrite length_map. apply filter_length_le.
Qed.

Lemma applyBallOp_bounded `{JsMath} (env : Env) (op : BallOp)
  (magicBalls : list MagicBall.t) :
  (length magicBalls <= 10)%nat ->
  (length (applyBallOp env magicBalls op) <= 10)%nat.
Proof.
  intros Hlen. destruct op; cbn [applyBallOp].
  - apply shiftWhileLonger_length.
  - rewrite updateMagicBalls_spec. cbn [fst].
    pose proof (tickBalls_length magicBalls). lia.
Qed.

Lemma runBalls_bounded `{JsMath} (env : Env) (ops : list BallOp) :
  forall magicBalls,
    (length magicBalls <= 10)%nat ->
    Forall (fun balls => (length balls <= 10)%nat)
           (runBalls env magicBalls ops).
Proof.
  induction ops as [|op ops IH]; intros magicBalls Hlen; cbn [runBalls].
  - constructor.
  - pose proof (applyBallOp_bounded env op magicBalls Hlen) as Hnext.
    constructor; [exact Hnext | apply IH, Hnext].
Qed.

(** ** The bounds of the buffers across frames *)

Lemma thumbUp_bounded `{JsMath} (env : Env) (now : Z) (random : nat -> Q)
  (thumbUpCoords : option PageCoords) (isLeftHand : bool)
  (history : list HandVelocity.t) (magicBalls : list MagicBall.t) :
  (length history <= VELOCITY_HISTORY_SIZE)%nat ->
  (length magicBalls <= 10)%nat ->
  (length (fst (thumbUp env now random thumbUpCoords isLeftHand history
                        magicBalls)) <= VELOCITY_HISTORY_SIZE)%nat
  /\ (length (snd (thumbUp env now random thumbUpCoords isLeftHand history
                           magicBalls)) <= 10)%nat.
Proof.
  intros Hhistory Hballs. unfold thumbUp.
  destruct thumbUpCoords as [coords|]; [|split; assumption].
  destruct (detectThrowingMotion
              (updateHandVelocityHistory env now history coords));
    cbn [fst snd].
  - split; [cbn; lia | apply shiftWhileLonger_length].
  - split; [apply shiftWhileLonger_length | assumption].
Qed.

Lemma processResults_bounded `{JsMath} `{HandUtils} (env : Env)
  (engine : Engine) (frame : Frame) :
  boundedEngine engine ->
  boundedEngine (fst (processResults env engine frame)).
Proof.
  intros (Hleft & Hright & Hballs).
  unfold processResults, boundedEngine.
  cbn [fst leftHandHistory rightHandHistory magicBalls].
  match goal with
  | |- context [thumbUp env (nowLeft frame) ?rnd ?coords true ?h ?b] =>
      destruct (thumbUp_bounded env (nowLeft frame) rnd coords true h b
                  Hleft Hballs) as [Hleft' Hballs']
  end.
  match goal with
  | |- context [thumbUp env (nowRight frame) ?rnd ?coords false ?h ?b] =>
      destruct (thumbUp_bounded env (nowRight frame) rnd coords false h b
                  Hright Hballs') as [Hright' Hballs'']
  end.
  split; [exact Hleft' | split; [exact Hright'|]].
  rewrite updateMagicBalls_spec. cbn [fst].
  match goal with
  | |- (length (tickBalls ?b) <= 10)%nat =>
      pose proof (tickBalls_length b)
  end.
  lia.
Qed.

Lemma runFrames_bounded `{JsMath} `{HandUtils} (env : Env)
  (frames : list Frame) :
  forall engine,
    boundedEngine engine ->
    Forall (fun step => boundedEngine (fst step))
           (runFrames env engine frames).
Proof.
  induction frames as [|frame frames IH]; intros engine Hbounded;
    cbn [runFrames].
  - constructor.
  - pose proof (processResults_bounded env engine frame Hbounded) as Hnext.
    constructor; [exact Hnext | apply IH, Hnext].
Qed.

Lemma initialEngine_bounded : boundedEngine initialEngine.
Proof. unfold boundedEngine. cbn. lia. Qed.

(** C1.  Whatever the history and whatever the sequence of record calls,
    the history holds at most 5 samples after each call; what a call keeps
    is the newest end of the history followed by the new sample, so a call
    on a full history evicts exactly its oldest sample and appends the new
    one last.  Over every run of frames from the initial engine both hand
    histories hold at most 5 samples after each frame. *)
Theorem history_bounded_fifo `{JsMath} `{HandUtils} (env : Env)
  (history : list HandVelocity.t) (calls : list (Z * PageCoords)) :
  Forall (fun h => (length h <= 5)%nat) (recordAll env history calls)
  /\ (forall now coords,
        let sample := {| HandVelocity.x := normalizedX env coords;
                         HandVelocity.y := normalizedY env coords;
                         HandVelocity.timestamp := now |} in
        updateHandVelocityHistory env now history coords
        = skipn (length (history ++ [sample]) - 5) (history ++ [sample]))
  /\ (forall now coords s1 s2 s3 s4 s5,
        updateHandVelocityHistory env now [s1; s2; s3; s4; s5] coords
        = [s2; s3; s4; s5;
           {| HandVelocity.x := normalizedX env coords;
              HandVelocity.y := normalizedY env coords;
              HandVelocity.timestamp := now |}])
  /\ (forall frames,
        Forall (fun step =>
                  (length (leftHandHistory (fst step)) <= 5)%nat
                  /\ (length (rightHandHistory (fst step)) <= 5)%nat)
               (runFrames env initialEngine frames)).
Proof.
  split; [apply recordAll_bounded|]. split; [|split].
  - intros now coords sample. unfold updateHandVelocityHistory.
    apply shiftWhileLonger_skipn.
  - intros. reflexivity.
  - intros frames.
    eapply Forall_impl;
      [|apply (runFrames_bounded env frames initialEngine initialEngine_bounded)].
    intros step (Hleft & Hright & _). split; assumption.
Qed.

(** C2.  From the empty collection, under any sequence of spawns and
    ticks, the collection never holds more than 10 balls, and so it is
    after each frame of every run of frames from the initial engine; a
    spawn alone leaves at most 10 whatever it started from; and a spawn
    into a collection of 10 removes the first inserted ball, keeps the
    other nine in order and puts the new ball last. *)
Theorem projectiles_bounded_fifo `{JsMath} `{HandUtils} (env : Env) :
  (forall ops,
      Forall (fun balls => (length balls <= 10)%nat) (runBalls env [] ops))
  /\ (forall frames,
        Forall (fun step => (length (magicBalls (fst step)) <= 10)%nat)
               (runFrames env initialEngine frames))
  /\ (forall random magicBalls handCoords velocity isLeftHand,
        (length (throwMagicBall env random magicBalls handCoords velocity
                                isLeftHand) <= 10)%nat)
  /\ (forall random handCoords velocity isLeftHand
             b1 b2 b3 b4 b5 b6 b7 b8 b9 b10,
        throwMagicBall env random [b1; b2; b3; b4; b5; b6; b7; b8; b9; b10]
                       handCoords velocity isLeftHand
        = [b2; b3; b4; b5; b6; b7; b8; b9; b10;
           thrownBall env random handCoords velocity]).
Proof.
  split; [|split; [|split]].
  - intros ops. apply runBalls_bounded. cbn. lia.
  - intros frames.
    eapply Forall_impl;
      [|apply (runFrames_bounded env frames initialEngine initialEngine_bounded)].
    intros step (_ & _ & Hballs). exact Hballs.
  - intros. apply shiftWhileLonger_length.
  - intros. reflexivity.
Qed.

(** ** Projectile engine: the life of a ball *)

Lemma advance_life (ball : MagicBall.t) :
  MagicBall.life (advance ball) = (MagicBall.life ball - 1)%Z.
Proof. reflexivity. Qed.

Lemma advance_maxLife (ball : MagicBall.t) :
  MagicBall.maxLife (advance ball) = MagicBall.maxLife ball.
Proof. reflexivity. Qed.

Lemma survives_iff (ball : MagicBall.t) :
  survives ball = true <-> (0 < MagicBall.life ball - 1)%Z.
Proof. unfold survives. cbn [MagicBall.update snd]. apply Z.ltb_lt. Qed.

Lemma removed_iff (ball : MagicBall.t) :
  (1 <= MagicBall.life ball)%Z ->
  (survives ball = false <-> MagicBall.life (advance ball) = 0%Z).
Proof.
  intros Hlive. rewrite advance_life.
  unfold survives. cbn [MagicBall.update snd]. rewrite Z.ltb_ge. lia.
Qed.

Lemma tickBalls_live (magicBalls : list MagicBall.t) :
  Forall liveBall magicBalls -> Forall liveBall (tickBalls magicBalls).
Proof.
  unfold tickBalls. intros Hall. apply Forall_map.
  rewrite Forall_forall in *. intros ball Hin.
  apply filter_In in Hin. destruct Hin as [Hin Halive].
  apply survives_iff in Halive. destruct (Hall ball Hin) as [Hlife Hmax].
  split; [rewrite advance_life; lia | rewrite advance_maxLife; exact Hmax].
Qed.

Lemma shiftWhileLonger_Forall {A : Type} (P : A -> Prop) (limit : nat)
  (arr : list A) :
  Forall P arr -> Forall P (shiftWhileLonger limit arr).
Proof.
  intros Hall. rewrite shiftWhileLonger_skipn.
  rewrite <- (firstn_skipn (length arr - limit) arr) in Hall.
  apply Forall_app in Hall. apply Hall.
Qed.

Lemma applyBallOp_live `{JsMath} (env : Env) (op : BallOp)
  (magicBalls : list MagicBall.t) :
  Forall liveBall magicBalls ->
  Forall liveBall (applyBallOp env magicBalls op).
Proof.
  intros Hall. destruct op; cbn [applyBallOp].
  - unfold throwMagicBall. apply shiftWhileLonger_Forall.
    unfold push. apply Forall_app. split; [exact Hall|].
    constructor; [|constructor]. unfold liveBall. cbn. lia.
  - rewrite updateMagicBalls_spec. cbn [fst]. apply tickBalls_live, Hall.
Qed.

Lemma runBalls_live `{JsMath} (env : Env) (ops : list BallOp) :
  forall magicBalls,
    Forall liveBall magicBalls ->
    Forall (Forall liveBall) (runBalls env magicBalls ops).
Proof.
  induction ops as [|op ops IH]; intros magicBalls Hall; cbn [runBalls].
  - constructor.
  - pose proof (applyBallOp_live env op magicBalls Hall) as Hnext.
    constructor; [exact Hnext | apply IH, Hnext].
Qed.

Lemma ticks_S `{JsMath} (k : nat) (magicBalls : list MagicBall.t) :
  ticks (S k) magicBalls = tickBalls (ticks k magicBalls).
Proof.
  change (ticks (S k) magicBalls)
    with (fst (updateMagicBalls (ticks k magicBalls))).
  rewrite updateMagicBalls_spec. reflexivity.
Qed.

Lemma ticks_app `{JsMath} (k : nat) (l1 l2 : list MagicBall.t) :
  ticks k (l1 ++ l2) = ticks k l1 ++ ticks k l2.
Proof.
  induction k as [|k IH]; [reflexivity|].
  rewrite !ticks_S, IH. apply tickBalls_app.
Qed.

Lemma ticks_countdown `{JsMath} (ball : MagicBall.t) (k : nat) :
  (Z.of_nat k < MagicBall.life ball)%Z ->
  exists ball',
    ticks k [ball] = [ball']
    /\ MagicBall.life ball' = (MagicBall.life ball - Z.of_nat k)%Z
    /\ MagicBall.maxLife ball' = MagicBall.maxLife ball.
Proof.
  induction k as [|k IH]; intros Hk.
  - exists ball. repeat split. cbn. lia.
  - destruct IH as (ball' & Hticks & Hlife & Hmax); [lia|].
    exists (advance ball'). rewrite ticks_S, Hticks, tickBalls_one.
    assert (Halive : survives ball' = true) by (apply survives_iff; lia).
    rewrite Halive, advance_life, advance_maxLife. repeat split; lia.
Qed.

Lemma ticks_expire `{JsMath} (ball : MagicBall.t) (k : nat) :
  (1 <= MagicBall.life ball)%Z ->
  Z.of_nat k = MagicBall.life ball ->
  ticks k [ball] = [].
Proof.
  intros Hlive Hk. destruct k as [|k]; [lia|].
  destruct (ticks_countdown ball k) as (ball' & Hticks & Hlife & _); [lia|].
  rewrite ticks_S, Hticks, tickBalls_one.
  destruct (survives ball') eqn:Halive; [|reflexivity].
  apply survives_iff in Halive. lia.
Qed.

(** C4.  On each tick the life of a ball decreases by exactly 1
    ([advance]), and the collection after the tick holds the advanced
    balls whose new life is still positive, in their order.  Every ball
    of a collection reached from the empty one has a life between 1 and
    120, and such a ball leaves the collection exactly on the tick that
    brings its life to 0.  A ball as the constructor builds it
    ([life = maxLife = 120]), ticked with no spawn in between, is in the
    collection with life [120 - k] after [k < 120] ticks and gone after
    120; ticks act on each ball of a collection separately. *)
Theorem life_countdown `{JsMath} (env : Env) :
  (forall ball,
      MagicBall.life (advance ball) = (MagicBall.life ball - 1)%Z)
  /\ (forall magicBalls,
        fst (updateMagicBalls magicBalls)
        = map advance
              (filter (fun ball => (0 <? MagicBall.life (advance ball))%Z)
                      magicBalls))
  /\ (forall ops, Forall (Forall liveBall) (runBalls env [] ops))
  /\ (forall ball,
        liveBall ball ->
        (survives ball = false <-> MagicBall.life (advance ball) = 0%Z))
  /\ (forall x y vx vy color k,
        (k < 120)%nat ->
        exists ball,
          ticks k [MagicBall.new x y vx vy color] = [ball]
          /\ MagicBall.life ball = (120 - Z.of_nat k)%Z)
  /\ (forall x y vx vy color,
        ticks 120 [MagicBall.new x y vx vy color] = [])
  /\ (forall k before ball after,
        ticks k (before ++ ball :: after)
        = ticks k before ++ ticks k [ball] ++ ticks k after).
Proof.
  split; [|split; [|split; [|split; [|split; [|split]]]]].
  - intros ball. apply advance_life.
  - intros magicBalls. rewrite updateMagicBalls_spec. reflexivity.
  - intros ops. apply runBalls_live. constructor.
  - intros ball [Hlife _]. apply removed_iff. lia.
  - intros x y vx vy color k Hk.
    destruct (ticks_countdown (MagicBall.new x y vx vy color) k)
      as (ball & Hticks & Hlife & _); [cbn; lia|].
    exists ball. split; [exact Hticks | exact Hlife].
  - intros. apply ticks_expire; cbn; lia.
  - intros. change (ball :: after) with ([ball] ++ after).
    rewrite !ticks_app. reflexivity.
Qed.

(** The ball thrown sideways, alone in the collection: one tick of life
    left after 119 ticks, gone after 120. *)
Lemma life_countdown_witness :
  (exists ball,
      ticks 119 [sidewaysBall] = [ball]
      /\ MagicBall.life ball = (120 - Z.of_nat 119)%Z)
  /\ ticks 120 [sidewaysBall] = [].
Proof.
  destruct (life_countdown canvas800x600) as (_ & _ & _ & _ & Hcount & Hgone & _).
  split; [apply Hcount; lia | apply Hgone].
Defined.

(** ** Velocity tracker: throw detection *)

Lemma Qlt_bool_iff (a b : Q) : Qlt_bool a b = true <-> a < b.
Proof.
  unfold Qlt_bool. rewrite negb_true_iff, <- not_true_iff_false.
  rewrite Qle_bool_iff. split; [apply Qnot_le_lt | apply Qlt_not_le].
Qed.

Lemma Qlt_bool_false_iff (a b : Q) : Qlt_bool a b = false <-> b <= a.
Proof.
  unfold Qlt_bool. rewrite negb_false_iff. apply Qle_bool_iff.
Qed.

Lemma detectThrowingStep_pair (history : list HandVelocity.t)
  (acc : ThrowSums) (i : nat) (prev cur : HandVelocity.t) :
  nth_error history (i - 1) = Some prev ->
  nth_error history i = Some cur ->
  detectThrowingStep history acc i = pairStep acc (prev, cur).
Proof.
  intros Hprev Hcur. unfold detectThrowingStep. rewrite Hprev, Hcur.
  reflexivity.
Qed.

Lemma fold_indices_pairs (history : list HandVelocity.t) :
  forall (first : HandVelocity.t) (offset : nat) (whole : list HandVelocity.t)
         (acc : ThrowSums),
    (forall k, nth_error whole (offset + k) = nth_error (first :: history) k) ->
    fold_left (detectThrowingStep whole)
              (seq (S offset) (length history)) acc
    = fold_left pairStep (combine (first :: history) history) acc.
Proof.
  induction history as [|second rest IH]; intros first offset whole acc Hnth.
  - reflexivity.
  - cbn [length seq fold_left combine].
    rewrite (detectThrowingStep_pair whole acc (S offset) first second).
    + apply (IH second (S offset)). intros k.
      replace (S offset + k)%nat with (offset + S k)%nat by lia.
      rewrite Hnth. reflexivity.
    + replace (S offset - 1)%nat with (offset + 0)%nat by lia.
      rewrite Hnth. reflexivity.
    + replace (S offset) with (offset + 1)%nat by lia.
      rewrite Hnth. reflexivity.
Qed.

Lemma loop_pairs (history : list HandVelocity.t) (acc : ThrowSums) :
  fold_left (detectThrowingStep history) (seq 1 (length history - 1)) acc
  = fold_left pairStep (consecutivePairs history) acc.
Proof.
  destruct history as [|first rest]; [reflexivity|].
  unfold consecutivePairs. cbn [length tl].
  rewrite Nat.sub_succ, Nat.sub_0_r.
  apply (fold_indices_pairs rest first 0). intros k. reflexivity.
Qed.

Lemma fold_pairStep (pairs : list (HandVelocity.t * HandVelocity.t)) :
  forall acc,
    fold_left pairStep pairs acc
    = let velocities := map pairVelocity (filter validPair pairs) in
      {| avgVx := fold_left Qplus (map Velocity.vx velocities) (avgVx acc);
         avgVy := fold_left Qplus (map Velocity.vy velocities) (avgVy acc);
         validSamples := validSamples acc + length velocities |}.
Proof.
  induction pairs as [|pair pairs IH]; intros acc; cbn [fold_left filter].
  - destruct acc. cbn. rewrite Nat.add_0_r. reflexivity.
  - rewrite IH. unfold pairStep.
    destruct (validPair pair); cbn -[pairVelocity Qplus].
    + rewrite Nat.add_succ_r. reflexivity.
    + reflexivity.
Qed.

(** What [detectThrowingMotion] computes, in the words of the
    specification. *)
Lemma detectThrowingMotion_unfold `{JsMath} (history : list HandVelocity.t) :
  detectThrowingMotion history
  = if (length history <? 3)%nat then None
    else if (length (validVelocities history) =? 0)%nat then None
    else if Qlt_bool THROW_VELOCITY_THRESHOLD
                     (magnitude (averageVelocity history))
    then Some (averageVelocity history)
    else None.
Proof.
  unfold detectThrowingMotion.
  destruct (length history <? 3)%nat; [reflexivity|].
  rewrite loop_pairs, fold_pairStep. cbn zeta.
  cbn [avgVx avgVy validSamples Nat.add].
  reflexivity.
Qed.

(** C3.  [detectThrowingMotion] returns none on a history of fewer than 3
    samples, and none whenever the average velocity of the valid pairs --
    the consecutive pairs whose time delta in seconds is strictly between
    0 and 0.1 -- has magnitude at most 8; it returns a vector exactly when
    there are at least 3 samples, at least one valid pair, and that
    average has magnitude above 8, and the vector is then that average,
    computed from the valid pairs only. *)
Theorem detectThrowingMotion_spec `{JsMath} (history : list HandVelocity.t) :
  ((length history < 3)%nat -> detectThrowingMotion history = None)
  /\ (magnitude (averageVelocity history) <= 8 ->
      detectThrowingMotion history = None)
  /\ (forall v,
        detectThrowingMotion history = Some v
        <-> ((3 <= length history)%nat
             /\ validVelocities history <> []
             /\ 8 < magnitude (averageVelocity history)
             /\ v = averageVelocity history))
  /\ (forall pair,
        validPair pair = true
        <-> 0 < timeDelta pair /\ timeDelta pair < 0.1).
Proof.
  rewrite detectThrowingMotion_unfold. unfold THROW_VELOCITY_THRESHOLD.
  split; [|split; [|split]].
  - intros Hshort. apply Nat.ltb_lt in Hshort. rewrite Hshort. reflexivity.
  - intros Hslow. apply Qlt_bool_false_iff in Hslow. rewrite Hslow.
    destruct (length history <? 3)%nat; [reflexivity|].
    destruct (length (validVelocities history) =? 0)%nat; reflexivity.
  - intros v.
    destruct (Nat.ltb_spec (length history) 3) as [Hshort|Hlong].
    { split; [discriminate | intros [Hlen _]; lia]. }
    destruct (Nat.eqb_spec (length (validVelocities history)) 0)
      as [Hnone|Hsome].
    { split; [discriminate|]. intros (_ & Hvalid & _).
      apply length_zero_iff_nil in Hnone. contradiction. }
    destruct (Qlt_bool 8 (magnitude (averageVelocity history))) eqn:Hfast.
    + apply Qlt_bool_iff in Hfast. split.
      * intros Heq. injection Heq as <-. repeat split; try assumption.
        intros Hnil. apply Hsome. rewrite Hnil. reflexivity.
      * intros (_ & _ & _ & ->). reflexivity.
    + apply Qlt_bool_false_iff in Hfast. split; [discriminate|].
      intros (_ & _ & Hgt & _). exfalso.
      apply (Qlt_not_le _ _ Hgt), Hfast.
  - intros pair. unfold validPair.
    rewrite andb_true_iff, !Qlt_bool_iff. reflexivity.
Qed.

(** Two samples, a slow swipe and a fast swipe. *)
Lemma detectThrowingMotion_spec_witness :
  detectThrowingMotion (firstn 2 fastSwipe) = None
  /\ detectThrowingMotion slowSwipe = None
  /\ detectThrowingMotion fastSwipe = Some (averageVelocity fastSwipe).
Proof.
  split; [|split].
  - apply (proj1 (detectThrowingMotion_spec (firstn 2 fastSwipe))).
    cbn. lia.
  - apply (proj1 (proj2 (detectThrowingMotion_spec slowSwipe))).
    vm_compute. discriminate.
  - apply (proj1 (proj2 (proj2 (detectThrowingMotion_spec fastSwipe)))).
    split; [cbn; lia|]. split; [vm_compute; discriminate|].
    split; [vm_compute; reflexivity | reflexivity].
Defined.

(** ** Projectile engine: integration and gravity *)

(** C5, as the code has it.  Each tick adds 0.016 times the velocity to
    the position and adds the constant 0.5 to the vertical velocity
    (commented [gravity]): the vertical velocity increases on every tick.
    In the bottom-up simulation space a ball thrown sideways therefore
    climbs: its vertical velocity goes from 0 to 0.5 on the first tick and
    its [y] from 0.5 to 0.508 on the second. *)
Theorem gravity_increases_vy :
  (forall ball,
      MagicBall.y (advance ball)
      = MagicBall.y ball + MagicBall.vy ball * 0.016
      /\ MagicBall.vy (advance ball) = MagicBall.vy ball + 0.5)
  /\ (forall ball, MagicBall.vy ball < MagicBall.vy (advance ball))
  /\ MagicBall.vy sidewaysBall == 0
  /\ MagicBall.vy (advance sidewaysBall) == 0.5
  /\ MagicBall.y (advance (advance sidewaysBall)) == 0.508
  /\ MagicBall.y sidewaysBall < MagicBall.y (advance (advance sidewaysBall)).
Proof.
  split; [|split; [|split; [|split; [|split]]]].
  - intros ball. split; reflexivity.
  - intros ball. cbn [advance MagicBall.update fst MagicBall.vy].
    rewrite <- (Qplus_0_r (MagicBall.vy ball)) at 1.
    apply Qplus_lt_r. reflexivity.
  - reflexivity.
  - reflexivity.
  - reflexivity.
  - reflexivity.
Qed.

(** ** Coordinate mapper *)

Lemma pixelRatio_nonzero (env : Env) : ~ pixelRatio env == 0.
Proof.
  unfold pixelRatio, truthy.
  destruct (Qeq_bool (devicePixelRatio env) 0) eqn:Hzero; cbn [negb].
  - discriminate.
  - apply Qeq_bool_neq, Hzero.
Qed.

(** C6 fails as the specification states it: on a canvas of 800 by 600
    at pixel ratio 1 the interior page point (100, 100) comes back as
    (100, 500). *)
Lemma roundTrip_mirrors_y :
  ~ specRoundTrip canvas800x600 {| pageX := 100; pageY := 100 |}.
Proof.
  unfold specRoundTrip. intros Hclaim.
  destruct Hclaim as (back & Hback & _ & Hy).
  - repeat split; reflexivity.
  - cbv [toPage toNormalized getPageCoords] in Hback.
    injection Hback as <-. vm_compute in Hy. discriminate.
Qed.

(** C6, amended.  For every page point, canvas of non-zero size and
    pixel ratio, converting to normalized simulation space and back with
    [getPageCoords] restores the x coordinate, and maps the y coordinate
    to its mirror image [canvasHeight / pixelRatio - pageY]:
    [getPageCoords] does not undo the Y flip. *)
Theorem roundTrip_x_and_mirrored_y (env : Env) (pagePoint : PageCoords) :
  ~ canvas_width env == 0 ->
  ~ canvas_height env == 0 ->
  exists back,
    toPage env (toNormalized env pagePoint) = Some back
    /\ pageX back == pageX pagePoint
    /\ pageY back == canvas_height env / pixelRatio env - pageY pagePoint.
Proof.
  intros Hwidth Hheight. pose proof (pixelRatio_nonzero env) as Hratio.
  eexists. split; [reflexivity|].
  cbn [pageX pageY toNormalized Coords2D.x Coords2D.y].
  unfold normalizedX, normalizedY.
  split; field; auto.
Qed.

(** The page point (100, 100) on the canvas of 800 by 600. *)
Lemma roundTrip_x_and_mirrored_y_witness :
  exists back,
    toPage canvas800x600
           (toNormalized canvas800x600 {| pageX := 100; pageY := 100 |})
    = Some back
    /\ pageX back == 100
    /\ pageY back == 600 / 1 - 100.
Proof.
  apply (@roundTrip_x_and_mirrored_y canvas800x600
           {| pageX := 100; pageY := 100 |}); vm_compute; discriminate.
Defined.

(** ** Projectile engine: the trail *)

Lemma createFluidEffect_unfold `{JsMath} (ball : MagicBall.t) :
  MagicBall.createFluidEffect ball
  = map (trailSplat ball
           (scaleColor (MagicBall.color ball) (lifeFraction ball) 0.8))
        (filter inBounds (map (trailPoint ball) (seq 0 3))).
Proof.
  unfold MagicBall.createFluidEffect. cbn [seq flat_map map filter].
  unfold inBounds, trailPoint, trailAngle. cbn [fst snd].
  case_tests; reflexivity.
Qed.

(** C7 fails, in the colour, as the specification states it: one tick
    after its throw (life 119 of 120) the white ball sends trail impulses
    of brightness 0.8 * 119/120, not 119/120. *)
Lemma trail_color_not_life_fraction : ~ specTrailColor tickedBall.
Proof.
  unfold specTrailColor. intros Hclaim.
  vm_compute in Hclaim.
  inversion Hclaim as [|splat rest [Hred _] _]. discriminate.
Qed.

(** C7, amended.  On every tick the engine runs the trail of every
    surviving ball, as advanced by that tick.  The trail attempts exactly
    three impulses, around the ball's position at the angles 0, 2 pi / 3
    and 4 pi / 3 (120 degrees apart); the impulses sent are the attempted
    ones whose point lies in [0,1] x [0,1], in order, an out-of-bounds
    point being skipped without stopping the others.  Each impulse sent
    has force 20 times the ball's velocity, and its colour is the ball's
    base colour scaled by 0.8 * life / maxLife. *)
Theorem trail_impulses `{JsMath} (ball : MagicBall.t) :
  (forall magicBalls,
      snd (updateMagicBalls magicBalls)
      = flat_map MagicBall.createFluidEffect
                 (rev (map advance (filter survives magicBalls))))
  /\ map (trailPoint ball) (seq 0 3)
     = [ (MagicBall.x ball + Math_cos (trailAngle 0) * 0.01,
          MagicBall.y ball + Math_sin (trailAngle 0) * 0.01);
         (MagicBall.x ball + Math_cos (trailAngle 1) * 0.01,
          MagicBall.y ball + Math_sin (trailAngle 1) * 0.01);
         (MagicBall.x ball + Math_cos (trailAngle 2) * 0.01,
          MagicBall.y ball + Math_sin (trailAngle 2) * 0.01) ]
  /\ (trailAngle 0 == 0
      /\ trailAngle 1 - trailAngle 0 == 2 * Math_PI / 3
      /\ trailAngle 2 - trailAngle 1 == 2 * Math_PI / 3)
  /\ MagicBall.createFluidEffect ball
     = map (trailSplat ball
              (scaleColor (MagicBall.color ball) (lifeFraction ball) 0.8))
           (filter inBounds (map (trailPoint ball) (seq 0 3)))
  /\ Forall
       (fun splat =>
          Splat.dx splat == 20 * MagicBall.vx ball
          /\ Splat.dy splat == 20 * MagicBall.vy ball
          /\ Color.r (Splat.color splat)
             == Color.r (MagicBall.color ball) * (0.8 * lifeFraction ball)
          /\ Color.g (Splat.color splat)
             == Color.g (MagicBall.color ball) * (0.8 * lifeFraction ball)
          /\ Color.b (Splat.color splat)
             == Color.b (MagicBall.color ball) * (0.8 * lifeFraction ball))
       (MagicBall.createFluidEffect ball).
Proof.
  split; [|split; [|split; [|split]]].
  - intros magicBalls. rewrite updateMagicBalls_spec. reflexivity.
  - reflexivity.
  - unfold trailAngle. cbn [Z.of_nat Pos.of_succ_nat Pos.succ].
    repeat split; field.
  - apply createFluidEffect_unfold.
  - rewrite createFluidEffect_unfold. apply Forall_map, Forall_forall.
    intros point _.
    cbn [trailSplat scaleColor Splat.dx Splat.dy Splat.color
         Color.r Color.g Color.b].
    repeat split; ring.
Qed.

(** ** Finger ray *)

(** C9.  When the index fingertip coincides with the index-finger base,
    the direction vector has zero length and [createFingerRay] returns at
    the zero-length test: it sends no impulse and has divided by nothing
    that is zero (the only divisions made before the test are the ones of
    [getPageCoords], by the pixel ratio, which is never zero).  The host's
    square root is only asked to map zero to zero. *)
Theorem createFingerRay_zero_direction `{JsMath} `{HandUtils} (env : Env)
  (now : Z) (random : nat -> Q) (landmarks : list NormalizedLandmark.t)
  (handCoords : PageCoords) (isLeftHand : bool)
  (fingerTip fingerMCP : NormalizedLandmark.t) :
  (forall q, q == 0 -> Math_sqrt q == 0) ->
  nth_error landmarks INDEX_FINGER_TIP = Some fingerTip ->
  nth_error landmarks INDEX_FINGER_MCP = Some fingerMCP ->
  NormalizedLandmark.x fingerTip == NormalizedLandmark.x fingerMCP ->
  NormalizedLandmark.y fingerTip == NormalizedLandmark.y fingerMCP ->
  createFingerRay env now random landmarks handCoords isLeftHand = Ok []
  /\ ~ pixelRatio env == 0.
Proof.
  intros Hsqrt Htip Hmcp Hx Hy. split; [|apply pixelRatio_nonzero].
  unfold createFingerRay. rewrite Htip, Hmcp.
  cbn [getPageCoords NormalizedLandmark.coords Coords2D.x Coords2D.y
       pageX pageY].
  match goal with
  | |- (if Qeq_bool ?len 0 then _ else _) = _ =>
      assert (Hlen : Qeq_bool len 0 = true)
  end.
  { apply Qeq_bool_iff, Hsqrt. rewrite Hx, Hy. unfold Qdiv. ring. }
  rewrite Hlen. reflexivity.
Qed.

Lemma approxSqrt_zero (q : Q) : q == 0 -> approxSqrt q == 0.
Proof.
  intros Hzero. unfold approxSqrt.
  assert (Hle : Qle_bool q 0 = true).
  { apply Qle_bool_iff. rewrite Hzero. apply Qle_refl. }
  rewrite Hle. reflexivity.
Qed.

(** A hand whose 21 landmarks all sit in the middle of the canvas. *)
Lemma createFingerRay_zero_direction_witness :
  createFingerRay canvas800x600 0 (fun _ => 0.5)
                  (handAt 0.5 0.5 0.5 0.5)
                  {| pageX := 400; pageY := 300 |} true
  = Ok []
  /\ ~ pixelRatio canvas800x600 == 0.
Proof.
  apply (@createFingerRay_zero_direction approxMath mediapipeHands
           canvas800x600 0 (fun _ => 0.5) (handAt 0.5 0.5 0.5 0.5)
           {| pageX := 400; pageY := 300 |} true
           {| NormalizedLandmark.x := 0.5; NormalizedLandmark.y := 0.5;
              NormalizedLandmark.z := 0 |}
           {| NormalizedLandmark.x := 0.5; NormalizedLandmark.y := 0.5;
              NormalizedLandmark.z := 0 |}).
  - exact approxSqrt_zero.
  - reflexivity.
  - reflexivity.
  - reflexivity.
  - reflexivity.
Defined.

(** With the fingertip above the base the same call sends the two
    impulses of the ray, and on a canvas of zero width it divides by
    zero: the early return is what the zero-length case relies on. *)
Lemma createFingerRay_sends_two :
  exists first second,
    createFingerRay canvas800x600 0 (fun _ => 0.5)
                    (handAt 0.5 0.5 0.5 0.4)
                    {| pageX := 400; pageY := 300 |} true
    = Ok [first; second].
Proof.
  eexists. eexists. vm_compute. reflexivity.
Qed.

Lemma createFingerRay_zero_canvas :
  createFingerRay
    {| canvas_width := 0; canvas_height := 600; devicePixelRatio := 1 |}
    0 (fun _ => 0.5) (handAt 0.5 0.5 0.5 0.4)
    {| pageX := 400; pageY := 300 |} true
  = DivisionByZero.
Proof. vm_compute. reflexivity. Qed.

(** ** Dispatcher: pointing *)

Lemma dispatchFists_no_pointing
  (leftFistCoords rightFistCoords : option PageCoords) :
  filter isPointingCall (dispatchFists leftFistCoords rightFistCoords) = [].
Proof.
  unfold dispatchFists.
  destruct (withXY leftFistCoords), (withXY rightFistCoords); reflexivity.
Qed.

Lemma sendTouch_no_pointing (event : TouchEvent) :
  filter isPointingCall (sendTouch event) = [].
Proof.
  unfold sendTouch.
  case_tests; reflexivity.
Qed.

Lemma dispatchPalms_no_pointing
  (leftHandCoords rightHandCoords : option PageCoords)
  (previousTouches : option (list Touch.t)) (touches : list Touch.t) :
  filter isPointingCall
         (dispatchPalms leftHandCoords rightHandCoords previousTouches touches)
  = [].
Proof.
  unfold dispatchPalms.
  destruct (withXY leftHandCoords), (withXY rightHandCoords),
    (0 <? length touches)%nat;
    try reflexivity; apply sendTouch_no_pointing.
Qed.

Lemma splats_no_pointing (splats : list Splat.t) :
  filter isPointingCall (map CreateSplat splats) = [].
Proof.
  induction splats as [|splat splats IH]; [reflexivity | exact IH].
Qed.

Lemma dispatchPointing_all_pointing
  (leftPointingCoords rightPointingCoords : option PageCoords)
  (leftLandmarks rightLandmarks : option (list NormalizedLandmark.t)) :
  filter isPointingCall
         (dispatchPointing leftPointingCoords rightPointingCoords
                           leftLandmarks rightLandmarks)
  = dispatchPointing leftPointingCoords rightPointingCoords
                     leftLandmarks rightLandmarks.
Proof.
  unfold dispatchPointing.
  destruct (withXY leftPointingCoords), (withXY rightPointingCoords),
    leftLandmarks, rightLandmarks; reflexivity.
Qed.

(** The pointing calls of a frame are those of its pointing block. *)
Lemma processResults_pointing `{JsMath} `{HandUtils} (env : Env)
  (engine : Engine) (frame : Frame) :
  filter isPointingCall (snd (processResults env engine frame))
  = dispatchPointing
      (coordsWhen env (leftOf (currentHandData frame)) POINTING_GESTURE)
      (coordsWhen env (rightOf (currentHandData frame)) POINTING_GESTURE)
      (landmarksOf (leftOf (currentHandData frame)))
      (landmarksOf (rightOf (currentHandData frame))).
Proof.
  unfold processResults. cbn [snd].
  rewrite !filter_app.
  rewrite dispatchFists_no_pointing, dispatchPalms_no_pointing,
    splats_no_pointing, dispatchPointing_all_pointing.
  rewrite !app_nil_r. reflexivity.
Qed.

Lemma anchor_has_landmarks `{HandUtils} (env : Env) (hand : option Hand)
  (coords : PageCoords) :
  anchor env hand = Some coords ->
  exists landmarks, landmarksOf hand = Some landmarks.
Proof.
  unfold anchor. destruct (landmarksOf hand) as [landmarks|].
  - intros _. exists landmarks. reflexivity.
  - discriminate.
Qed.

Lemma coordsWhen_anchor `{HandUtils} (env : Env) (hand : option Hand)
  (name : string) :
  withXY (coordsWhen env hand name)
  = if gestureIs hand name then anchor env hand else None.
Proof.
  unfold coordsWhen, anchor. destruct (gestureIs hand name); reflexivity.
Qed.

Lemma gestureIs_other (hand : option Hand) (name other : string) :
  gestureIs hand name = true ->
  String.eqb name other = false ->
  gestureIs hand other = false.
Proof.
  unfold gestureIs. destruct hand as [[[g|] lm]|]; try discriminate.
  intros Hname Hother. apply String.eqb_eq in Hname. rewrite Hname.
  exact Hother.
Qed.

Lemma coordsWhen_other `{HandUtils} (env : Env) (hand : option Hand)
  (name other : string) :
  gestureIs hand name = true ->
  String.eqb name other = false ->
  coordsWhen env hand other = None.
Proof.
  intros Hname Hother. unfold coordsWhen.
  rewrite (gestureIs_other hand name other Hname Hother). reflexivity.
Qed.

(** C8.  In a frame where both hands are classified [Pointing_Up] and
    both anchors are available, the frame calls the combined dual-ray
    generator once, on the two anchors, and besides it only sends the
    trail splats of the projectiles: no single-hand finger ray is invoked
    for either hand.  In a frame where one hand is classified
    [Pointing_Up] with its anchor available and the other hand is not, the
    only pointing call is the single-hand finger ray of the pointing hand,
    on its landmarks and anchor. *)
Theorem pointing_dispatch `{JsMath} `{HandUtils} (env : Env)
  (engine : Engine) (frame : Frame) :
  let leftHand := leftOf (currentHandData frame) in
  let rightHand := rightOf (currentHandData frame) in
  let calls := snd (processResults env engine frame) in
  (forall l r,
      gestureIs leftHand POINTING_GESTURE = true ->
      gestureIs rightHand POINTING_GESTURE = true ->
      anchor env leftHand = Some l ->
      anchor env rightHand = Some r ->
      calls
      = CreateBothPointingRaysToCenter l r
        :: map CreateSplat (snd (updateMagicBalls (magicBalls engine))))
  /\ (forall l,
        gestureIs leftHand POINTING_GESTURE = true ->
        gestureIs rightHand POINTING_GESTURE = false ->
        anchor env leftHand = Some l ->
        exists landmarks,
          landmarksOf leftHand = Some landmarks
          /\ filter isPointingCall calls = [CreateFingerRay landmarks l true])
  /\ (forall r,
        gestureIs leftHand POINTING_GESTURE = false ->
        gestureIs rightHand POINTING_GESTURE = true ->
        anchor env rightHand = Some r ->
        exists landmarks,
          landmarksOf rightHand = Some landmarks
          /\ filter isPointingCall calls
             = [CreateFingerRay landmarks r false]).
Proof.
  intros leftHand rightHand calls. subst calls.
  split; [|rewrite processResults_pointing; fold leftHand rightHand;
           unfold dispatchPointing; rewrite !coordsWhen_anchor; split].
  - intros l r Hleft Hright Hl Hr.
    unfold processResults, palmTouches. fold leftHand rightHand. cbn [snd].
    rewrite (coordsWhen_other env leftHand POINTING_GESTURE GESTURE_MATCH Hleft),
      (coordsWhen_other env rightHand POINTING_GESTURE GESTURE_MATCH Hright),
      (coordsWhen_other env leftHand POINTING_GESTURE FIST_GESTURE Hleft),
      (coordsWhen_other env rightHand POINTING_GESTURE FIST_GESTURE Hright),
      (coordsWhen_other env leftHand POINTING_GESTURE THUMB_UP_GESTURE Hleft),
      (coordsWhen_other env rightHand POINTING_GESTURE THUMB_UP_GESTURE Hright)
      by reflexivity.
    unfold dispatchPointing. rewrite !coordsWhen_anchor.
    rewrite Hleft, Hright, Hl, Hr. reflexivity.
  - intros l Hleft Hright Hl. rewrite Hleft, Hright, Hl.
    destruct (anchor_has_landmarks env leftHand l Hl) as [landmarks Hlm].
    exists landmarks. rewrite Hlm. split; reflexivity.
  - intros r Hleft Hright Hr. rewrite Hleft, Hright, Hr.
    destruct (anchor_has_landmarks env rightHand r Hr) as [landmarks Hlm].
    exists landmarks. rewrite Hlm. split; reflexivity.
Qed.

(** Three frames on the canvas of 800 by 600: both hands pointing, the
    left hand pointing beside a right fist, the right hand pointing
    alone. *)
Lemma pointing_dispatch_witness :
  (exists l r,
      snd (processResults canvas800x600 initialEngine
             (frameOf (Some leftPointing) (Some rightPointing)))
      = CreateBothPointingRaysToCenter l r
        :: map CreateSplat
               (snd (updateMagicBalls (magicBalls initialEngine))))
  /\ (exists l landmarks,
        landmarksOf (Some leftPointing) = Some landmarks
        /\ filter isPointingCall
                  (snd (processResults canvas800x600 initialEngine
                          (frameOf (Some leftPointing) (Some rightFist))))
           = [CreateFingerRay landmarks l true])
  /\ (exists r landmarks,
        landmarksOf (Some rightPointing) = Some landmarks
        /\ filter isPointingCall
                  (snd (processResults canvas800x600 initialEngine
                          (frameOf None (Some rightPointing))))
           = [CreateFingerRay landmarks r false]).
Proof.
  split; [|split].
  - destruct (pointing_dispatch canvas800x600 initialEngine
                (frameOf (Some leftPointing) (Some rightPointing)))
      as [Hboth _].
    eexists. eexists. apply Hboth; reflexivity.
  - destruct (pointing_dispatch canvas800x600 initialEngine
                (frameOf (Some leftPointing) (Some rightFist)))
      as (_ & Hleft & _).
    eexists. apply Hleft; reflexivity.
  - destruct (pointing_dispatch canvas800x600 initialEngine
                (frameOf None (Some rightPointing)))
      as (_ & _ & Hright).
    eexists. apply Hright; reflexivity.
Defined.

(** ** Dispatcher: synthesized touch events *)

Lemma continuesTouch_test (previous current : list Touch.t) :
  negb (length previous =? 0)%nat && (length current <=? length previous)%nat
  = true
  <-> continuesTouch previous current.
Proof.
  unfold continuesTouch.
  rewrite andb_true_iff, negb_true_iff, Nat.eqb_neq, Nat.leb_le.
  rewrite length_zero_iff_nil. reflexivity.
Qed.

Lemma getEvent_type (previousTouches : option (list Touch.t))
  (touches : list Touch.t) :
  fst (getEvent previousTouches touches)
  = createTouchEvent
      (if negb (length (previousList previousTouches) =? 0)%nat
          && (length touches <=? length (previousList previousTouches))%nat
       then "touchmove"%string else "touchstart"%string)
      touches.
Proof.
  unfold getEvent. fold (previousList previousTouches).
  destruct (negb (length (previousList previousTouches) =? 0)%nat
            && (length touches <=? length (previousList previousTouches))%nat);
    reflexivity.
Qed.

Lemma sendTouch_getEvent (previousTouches : option (list Touch.t))
  (touches : list Touch.t) :
  sendTouch (fst (getEvent previousTouches touches))
  = if negb (length (previousList previousTouches) =? 0)%nat
       && (length touches <=? length (previousList previousTouches))%nat
    then [SendTouchMove (createTouchEvent "touchmove" touches)]
    else [SendTouchStart (createTouchEvent "touchstart" touches)].
Proof.
  rewrite getEvent_type.
  destruct (negb (length (previousList previousTouches) =? 0)%nat
            && (length touches <=? length (previousList previousTouches))%nat);
    reflexivity.
Qed.

Lemma dispatchFists_no_touch
  (leftFistCoords rightFistCoords : option PageCoords) :
  filter isTouchCall (dispatchFists leftFistCoords rightFistCoords) = [].
Proof.
  unfold dispatchFists.
  destruct (withXY leftFistCoords), (withXY rightFistCoords); reflexivity.
Qed.

Lemma dispatchPointing_no_touch
  (leftPointingCoords rightPointingCoords : option PageCoords)
  (leftLandmarks rightLandmarks : option (list NormalizedLandmark.t)) :
  filter isTouchCall
         (dispatchPointing leftPointingCoords rightPointingCoords
                           leftLandmarks rightLandmarks)
  = [].
Proof.
  unfold dispatchPointing.
  destruct (withXY leftPointingCoords), (withXY rightPointingCoords),
    leftLandmarks, rightLandmarks; reflexivity.
Qed.

Lemma splats_no_touch (splats : list Splat.t) :
  filter isTouchCall (map CreateSplat splats) = [].
Proof.
  induction splats as [|splat splats IH]; [reflexivity | exact IH].
Qed.

Lemma dispatchPalms_touch
  (leftHandCoords rightHandCoords : option PageCoords)
  (previousTouches : option (list Touch.t)) (touches : list Touch.t) :
  let calls :=
    filter isTouchCall
           (dispatchPalms leftHandCoords rightHandCoords previousTouches
                          touches) in
  calls = []
  \/ (calls = [SendTouchMove (createTouchEvent "touchmove" touches)]
      /\ continuesTouch (previousList previousTouches) touches)
  \/ (calls = [SendTouchStart (createTouchEvent "touchstart" touches)]
      /\ ~ continuesTouch (previousList previousTouches) touches).
Proof.
  unfold dispatchPalms.
  assert (Hsend :
    let calls :=
      filter isTouchCall (sendTouch (fst (getEvent previousTouches touches)))
    in
    (calls = [SendTouchMove (createTouchEvent "touchmove" touches)]
     /\ continuesTouch (previousList previousTouches) touches)
    \/ (calls = [SendTouchStart (createTouchEvent "touchstart" touches)]
        /\ ~ continuesTouch (previousList previousTouches) touches)).
  { rewrite sendTouch_getEvent.
    destruct (negb (length (previousList previousTouches) =? 0)%nat
              && (length touches <=? length (previousList previousTouches))%nat)
      eqn:Htest; cbn [filter isTouchCall].
    - left. split; [reflexivity | apply continuesTouch_test, Htest].
    - right. split; [reflexivity|]. intros Hcont.
      apply continuesTouch_test in Hcont. congruence. }
  destruct (withXY leftHandCoords), (withXY rightHandCoords),
    (0 <? length touches)%nat; cbn zeta;
    first [ left; reflexivity | right; exact Hsend ].
Qed.

Lemma processResults_touch `{JsMath} `{HandUtils} (env : Env)
  (engine : Engine) (frame : Frame) :
  filter isTouchCall (snd (processResults env engine frame))
  = filter isTouchCall
      (dispatchPalms
         (coordsWhen env (leftOf (currentHandData frame)) GESTURE_MATCH)
         (coordsWhen env (rightOf (currentHandData frame)) GESTURE_MATCH)
         (previousTouches engine)
         (palmTouches env (leftOf (currentHandData frame))
                      (rightOf (currentHandData frame)))).
Proof.
  unfold processResults. cbn [snd].
  rewrite !filter_app.
  rewrite dispatchFists_no_touch, dispatchPointing_no_touch, splats_no_touch.
  rewrite app_nil_r. reflexivity.
Qed.

Lemma processResults_frame_touch `{JsMath} `{HandUtils} (env : Env)
  (engine : Engine) (frame : Frame) :
  let touches :=
    palmTouches env (leftOf (currentHandData frame))
                (rightOf (currentHandData frame)) in
  let previous := previousList (previousTouches engine) in
  let calls :=
    filter isTouchCall (snd (processResults env engine frame)) in
  calls = []
  \/ (calls = [SendTouchMove (createTouchEvent "touchmove" touches)]
      /\ continuesTouch previous touches)
  \/ (calls = [SendTouchStart (createTouchEvent "touchstart" touches)]
      /\ ~ continuesTouch previous touches).
Proof.
  cbn zeta. rewrite processResults_touch. apply dispatchPalms_touch.
Qed.

Lemma processResults_no_touchend `{JsMath} `{HandUtils} (env : Env)
  (engine : Engine) (frame : Frame) (event : TouchEvent) :
  ~ In (SendTouchEnd event) (snd (processResults env engine frame)).
Proof.
  intros Hin.
  assert (Hfiltered :
    In (SendTouchEnd event)
       (filter isTouchCall (snd (processResults env engine frame)))).
  { apply filter_In. split; [exact Hin | reflexivity]. }
  destruct (processResults_frame_touch env engine frame)
    as [Hnone | [[Hmove _] | [Hstart _]]].
  - rewrite Hnone in Hfiltered. destruct Hfiltered.
  - rewrite Hmove in Hfiltered.
    destruct Hfiltered as [Heq | []]. discriminate.
  - rewrite Hstart in Hfiltered.
    destruct Hfiltered as [Heq | []]. discriminate.
Qed.

Lemma runFrames_no_touchend `{JsMath} `{HandUtils} (env : Env)
  (frames : list Frame) :
  forall engine,
    Forall (fun step => forall event, ~ In (SendTouchEnd event) (snd step))
           (runFrames env engine frames).
Proof.
  induction frames as [|frame frames IH]; intros engine; cbn [runFrames].
  - constructor.
  - constructor; [|apply IH].
    intros event. apply processResults_no_touchend.
Qed.

(** C10.  Over every sequence of frames, from every engine state, no
    frame calls [sendTouchEnd].  The event [getEvent] synthesizes is a
    [touchmove] exactly when the previous touch list is not empty and at
    least as long as the current one, and a [touchstart] otherwise; a
    frame makes at most one touch call, a [sendTouchMove] of that
    [touchmove] or a [sendTouchStart] of that [touchstart], and leaves
    its own touch list as the previous one of the next frame. *)
Theorem touchend_never_sent `{JsMath} `{HandUtils} (env : Env) :
  (forall engine frames,
      Forall (fun step => forall event, ~ In (SendTouchEnd event) (snd step))
             (runFrames env engine frames))
  /\ (forall previousTouches touches,
        let event := fst (getEvent previousTouches touches) in
        (type event = "touchmove"%string
         <-> continuesTouch (previousList previousTouches) touches)
        /\ (type event = "touchstart"%string
            <-> ~ continuesTouch (previousList previousTouches) touches))
  /\ (forall engine frame,
        let touches :=
          palmTouches env (leftOf (currentHandData frame))
                      (rightOf (currentHandData frame)) in
        let previous := previousList (previousTouches engine) in
        let calls :=
          filter isTouchCall (snd (processResults env engine frame)) in
        (calls = []
         \/ (calls = [SendTouchMove (createTouchEvent "touchmove" touches)]
             /\ continuesTouch previous touches)
         \/ (calls = [SendTouchStart (createTouchEvent "touchstart" touches)]
             /\ ~ continuesTouch previous touches))
        /\ previousTouches (fst (processResults env engine frame))
           = Some touches).
Proof.
  split; [|split].
  - intros engine frames. apply runFrames_no_touchend.
  - intros previousTouches touches event. subst event.
    rewrite getEvent_type.
    destruct (negb (length (previousList previousTouches) =? 0)%nat
              && (length touches <=? length (previousList previousTouches))%nat)
      eqn:Htest; cbn [type createTouchEvent].
    + apply continuesTouch_test in Htest.
      split; split; try discriminate; intros; try assumption;
        try reflexivity; contradiction.
    + assert (Hnot : ~ continuesTouch (previousList previousTouches) touches).
      { intros Hcont. apply continuesTouch_test in Hcont. congruence. }
      split; split; try discriminate; intros; try assumption;
        try reflexivity; contradiction.
  - intros engine frame. cbn zeta.
    split; [apply processResults_frame_touch | reflexivity].
Qed.

(** Two frames with the same open left palm: the first sends a
    [touchstart], the second a [touchmove]. *)
Lemma two_open_palm_frames :
  map (fun step => filter isTouchCall (snd step))
      (runFrames canvas800x600 initialEngine
                 [frameOf (Some leftPalm) None; frameOf (Some leftPalm) None])
  = [ [SendTouchStart
         (createTouchEvent "touchstart"
            (palmTouches canvas800x600 (Some leftPalm) None))];
      [SendTouchMove
         (createTouchEvent "touchmove"
            (palmTouches canvas800x600 (Some leftPalm) None))] ].
Proof. vm_compute. reflexivity. Qed.

(** * Part III: further properties of the code *)

(** ** Projectiles: walls and speed *)

Lemma crossed_iff (x : Q) :
  Qlt_bool x 0 || Qlt_bool 1 x = true <-> x < 0 \/ 1 < x.
Proof. rewrite orb_true_iff, !Qlt_bool_iff. reflexivity. Qed.

Lemma not_crossed_iff (x : Q) :
  Qlt_bool x 0 || Qlt_bool 1 x = false <-> 0 <= x <= 1.
Proof. rewrite orb_false_iff, !Qlt_bool_false_iff. reflexivity. Qed.

Lemma clamp_in_range (x : Q) : 0 <= Math_max 0 (Math_min 1 x) <= 1.
Proof.
  unfold Math_max, Math_min. split.
  - apply Q.le_max_l.
  - apply Q.max_lub; [discriminate | apply Q.le_min_l].
Qed.

(** X1.  After every update the ball is between the two side walls, [x] in
    [0,1], and its horizontal speed has not grown; nothing of the kind
    holds vertically, where the ball is never clamped. *)
Theorem update_keeps_x_between_walls (ball : MagicBall.t) :
  0 <= MagicBall.x (advance ball) <= 1
  /\ Qabs (MagicBall.vx (advance ball)) <= Qabs (MagicBall.vx ball).
Proof.
  unfold advance. cbn [MagicBall.update fst MagicBall.x MagicBall.vx].
  destruct (Qlt_bool (MagicBall.x ball + MagicBall.vx ball * 0.016) 0
            || Qlt_bool 1 (MagicBall.x ball + MagicBall.vx ball * 0.016))
    eqn:Hcrossed.
  - split; [apply clamp_in_range|].
    rewrite Qabs_Qmult. change (Qabs (-0.8)) with 0.8.
    pose proof (Qabs_nonneg (MagicBall.vx ball)). lra.
  - apply not_crossed_iff in Hcrossed. split; [exact Hcrossed|apply Qle_refl].
Qed.

(** X2.  A ball whose integrated position leaves [0,1] bounces on the same
    update: its horizontal velocity is reversed and scaled by 0.8, and it
    is put back on the wall it crossed. *)
Theorem update_bounces_off_wall (ball : MagicBall.t) :
  MagicBall.x ball + MagicBall.vx ball * 0.016 < 0
  \/ 1 < MagicBall.x ball + MagicBall.vx ball * 0.016 ->
  MagicBall.vx (advance ball) == -0.8 * MagicBall.vx ball
  /\ (MagicBall.x ball + MagicBall.vx ball * 0.016 < 0 ->
      MagicBall.x (advance ball) == 0)
  /\ (1 < MagicBall.x ball + MagicBall.vx ball * 0.016 ->
      MagicBall.x (advance ball) == 1).
Proof.
  intros Hout. apply crossed_iff in Hout.
  unfold advance. cbn [MagicBall.update fst MagicBall.x MagicBall.vx].
  rewrite Hout. unfold Math_max, Math_min.
  split; [ring|]. split; intros Hside.
  - rewrite (Q.min_r 1 _) by (apply Qlt_le_weak; lra).
    apply Q.max_l. apply Qlt_le_weak, Hside.
  - rewrite (Q.min_l 1 _) by (apply Qlt_le_weak, Hside).
    apply Q.max_r. discriminate.
Qed.

(** The ball at 0.95 moving right at 10 units per second. *)
Lemma update_bounces_off_wall_witness :
  MagicBall.vx (advance wallBall) == -0.8 * MagicBall.vx wallBall
  /\ (MagicBall.x wallBall + MagicBall.vx wallBall * 0.016 < 0 ->
      MagicBall.x (advance wallBall) == 0)
  /\ (1 < MagicBall.x wallBall + MagicBall.vx wallBall * 0.016 ->
      MagicBall.x (advance wallBall) == 1).
Proof.
  apply (update_bounces_off_wall wallBall). right. reflexivity.
Defined.

(** ** Projectiles: flight *)

Lemma advanceBy_S (k : nat) (ball : MagicBall.t) :
  advanceBy (S k) ball = advance (advanceBy k ball).
Proof. reflexivity. Qed.

Lemma inject_Z_succ (k : nat) :
  inject_Z (Z.of_nat (S k)) == inject_Z (Z.of_nat k) + 1.
Proof.
  rewrite Nat2Z.inj_succ. unfold Z.succ. rewrite inject_Z_plus. reflexivity.
Qed.

Lemma advanceBy_life (k : nat) (ball : MagicBall.t) :
  MagicBall.life (advanceBy k ball) = (MagicBall.life ball - Z.of_nat k)%Z.
Proof.
  induction k as [|k IH].
  - cbn. lia.
  - rewrite advanceBy_S, advance_life, IH. lia.
Qed.

Lemma ticks_advanceBy `{JsMath} (k : nat) (ball : MagicBall.t) :
  (Z.of_nat k < MagicBall.life ball)%Z ->
  ticks k [ball] = [advanceBy k ball].
Proof.
  induction k as [|k IH]; intros Hk; [reflexivity|].
  rewrite ticks_S, IH by lia. rewrite tickBalls_one.
  assert (Halive : survives (advanceBy k ball) = true).
  { apply survives_iff. rewrite advanceBy_life. lia. }
  rewrite Halive. reflexivity.
Qed.

Lemma advanceBy_vy (k : nat) (ball : MagicBall.t) :
  MagicBall.vy (advanceBy k ball)
  == MagicBall.vy ball + 0.5 * inject_Z (Z.of_nat k).
Proof.
  induction k as [|k IH].
  - change (advanceBy 0 ball) with ball. change (inject_Z (Z.of_nat 0)) with 0.
    ring.
  - rewrite advanceBy_S.
    change (MagicBall.vy (advance (advanceBy k ball)))
      with (MagicBall.vy (advanceBy k ball) + 0.5).
    rewrite IH, inject_Z_succ. ring.
Qed.

Lemma advanceBy_y (k : nat) (ball : MagicBall.t) :
  MagicBall.y (advanceBy k ball)
  == MagicBall.y ball
     + 0.016 * (inject_Z (Z.of_nat k) * MagicBall.vy ball
                + 0.25 * inject_Z (Z.of_nat k)
                  * (inject_Z (Z.of_nat k) - 1)).
Proof.
  induction k as [|k IH].
  - change (advanceBy 0 ball) with ball. change (inject_Z (Z.of_nat 0)) with 0.
    ring.
  - rewrite advanceBy_S.
    change (MagicBall.y (advance (advanceBy k ball)))
      with (MagicBall.y (advanceBy k ball)
            + MagicBall.vy (advanceBy k ball) * 0.016).
    rewrite IH, advanceBy_vy, inject_Z_succ. ring.
Qed.

(** X3.  While a ball lives, [k] ticks of the engine leave it with the state
    of [k] updates in a row: its vertical velocity has grown by [0.5 k]
    and its height by [0.016 (k vy + k (k - 1) / 4)], with no floor and
    no ceiling to stop it. *)
Theorem ball_flight `{JsMath} (ball : MagicBall.t) (k : nat) :
  (Z.of_nat k < MagicBall.life ball)%Z ->
  exists flown,
    ticks k [ball] = [flown]
    /\ MagicBall.vy flown
       == MagicBall.vy ball + 0.5 * inject_Z (Z.of_nat k)
    /\ MagicBall.y flown
       == MagicBall.y ball
          + 0.016 * (inject_Z (Z.of_nat k) * MagicBall.vy ball
                     + 0.25 * inject_Z (Z.of_nat k)
                       * (inject_Z (Z.of_nat k) - 1)).
Proof.
  intros Hk. exists (advanceBy k ball).
  split; [apply ticks_advanceBy, Hk|].
  split; [apply advanceBy_vy | apply advanceBy_y].
Qed.

(** The ball thrown sideways, 100 ticks on. *)
Lemma ball_flight_witness :
  exists flown,
    ticks 100 [sidewaysBall] = [flown]
    /\ MagicBall.vy flown
       == MagicBall.vy sidewaysBall + 0.5 * inject_Z (Z.of_nat 100)
    /\ MagicBall.y flown
       == MagicBall.y sidewaysBall
          + 0.016 * (inject_Z (Z.of_nat 100) * MagicBall.vy sidewaysBall
                     + 0.25 * inject_Z (Z.of_nat 100)
                       * (inject_Z (Z.of_nat 100) - 1)).
Proof.
  apply (ball_flight sidewaysBall 100). reflexivity.
Defined.

(** ** Projectiles: the splats of a tick *)

Lemma createFluidEffect_length `{JsMath} (ball : MagicBall.t) :
  (length (MagicBall.createFluidEffect ball) <= 3)%nat.
Proof.
  rewrite createFluidEffect_unfold, length_map.
  etransitivity; [apply filter_length_le|].
  rewrite length_map, length_seq. apply Nat.le_refl.
Qed.

Lemma flat_map_length_le {A B : Type} (f : A -> list B) (bound : nat)
  (l : list A) :
  (forall a, (length (f a) <= bound)%nat) ->
  (length (flat_map f l) <= bound * length l)%nat.
Proof.
  intros Hbound. induction l as [|a l IH]; cbn [flat_map length]; [lia|].
  rewrite length_app. pose proof (Hbound a). lia.
Qed.

(** X4.  One tick sends at most three splats per ball it keeps, so at most 30
    for a collection within its cap of 10; it never adds a ball. *)
Theorem tick_splat_budget `{JsMath} (magicBalls : list MagicBall.t) :
  (length (snd (updateMagicBalls magicBalls))
   <= 3 * length (fst (updateMagicBalls magicBalls)))%nat
  /\ (length (fst (updateMagicBalls magicBalls)) <= length magicBalls)%nat.
Proof.
  rewrite updateMagicBalls_spec. cbn [fst snd]. split.
  - rewrite <- (length_rev (tickBalls magicBalls)).
    apply flat_map_length_le, createFluidEffect_length.
  - apply tickBalls_length.
Qed.

(** ** Projectiles: the ball of a throw *)

Lemma throwMagicBall_appends (env : Env) (random : nat -> Q)
  (magicBalls : list MagicBall.t) (handCoords : PageCoords)
  (velocity : Velocity.t) (isLeftHand : bool) :
  throwMagicBall env random magicBalls handCoords velocity isLeftHand
  = skipn (length magicBalls + 1 - 10) magicBalls
    ++ [thrownBall env random handCoords velocity].
Proof.
  unfold throwMagicBall. rewrite shiftWhileLonger_skipn. unfold push.
  rewrite length_app, skipn_app. cbn [length].
  replace (length magicBalls + 1 - 10 - length magicBalls)%nat with 0%nat
    by lia.
  reflexivity.
Qed.

(** X5.  Whatever the collection, a throw keeps its newest balls in order and
    puts the new ball last, so the ball just thrown is never the one
    evicted; with [Math.random()] in [0,1) each colour channel of the new
    ball lies in [0.3, 1), the same for both hands. *)
Theorem thrown_ball_kept_and_bright (env : Env) (random : nat -> Q)
  (magicBalls : list MagicBall.t) (handCoords : PageCoords)
  (velocity : Velocity.t) (isLeftHand : bool) :
  (forall k, 0 <= random k < 1) ->
  exists ball,
    throwMagicBall env random magicBalls handCoords velocity isLeftHand
    = skipn (length magicBalls + 1 - 10) magicBalls ++ [ball]
    /\ 0.3 <= Color.r (MagicBall.color ball) < 1
    /\ 0.3 <= Color.g (MagicBall.color ball) < 1
    /\ 0.3 <= Color.b (MagicBall.color ball) < 1.
Proof.
  intros Hrandom. exists (thrownBall env random handCoords velocity).
  split; [apply throwMagicBall_appends|].
  cbn [thrownBall MagicBall.new MagicBall.color Color.r Color.g Color.b].
  pose proof (Hrandom 1%nat). pose proof (Hrandom 2%nat).
  pose proof (Hrandom 3%nat). repeat split; lra.
Qed.

(** A throw into the empty collection with every draw at one half. *)
Lemma thrown_ball_kept_and_bright_witness :
  exists ball,
    throwMagicBall canvas800x600 (fun _ => 0.5) []
                   {| pageX := 400; pageY := 300 |}
                   {| Velocity.vx := 10; Velocity.vy := 0 |} true
    = skipn (length (@nil MagicBall.t) + 1 - 10) [] ++ [ball]
    /\ 0.3 <= Color.r (MagicBall.color ball) < 1
    /\ 0.3 <= Color.g (MagicBall.color ball) < 1
    /\ 0.3 <= Color.b (MagicBall.color ball) < 1.
Proof.
  apply (thrown_ball_kept_and_bright canvas800x600 (fun _ => 0.5) []
           {| pageX := 400; pageY := 300 |}
           {| Velocity.vx := 10; Velocity.vy := 0 |} true).
  intros k. split; [discriminate | reflexivity].
Defined.

(** ** Generators: the glow of two open palms *)

Lemma glow_unfold (env : Env) (leftHandCoords rightHandCoords : PageCoords) :
  createBothHandsGlowEffect env leftHandCoords rightHandCoords
  = flat_map
      (fun t =>
         [ glowSplat (normalizedX env leftHandCoords)
                     (normalizedY env leftHandCoords) t
                     {| Color.r := 0.05; Color.g := 0.15; Color.b := 0.3 |};
           glowSplat (normalizedX env rightHandCoords)
                     (normalizedY env rightHandCoords) t
                     {| Color.r := 0.3; Color.g := 0.1; Color.b := 0.05 |} ])
      [(0 + 1) / (2 + 1); (1 + 1) / (2 + 1)].
Proof. reflexivity. Qed.

Lemma glowSplat_point (handX handY t : Q) (color : Color.t) :
  Splat.x (glowSplat handX handY t color)
  == (1 - t) * handX + t * 0.5
  /\ Splat.y (glowSplat handX handY t color)
     == (1 - t) * handY + t * 0.5
  /\ Splat.dx (glowSplat handX handY t color) == 200 * (0.5 - handX)
  /\ Splat.dy (glowSplat handX handY t color) == 200 * (0.5 - handY).
Proof. cbn. repeat split; ring. Qed.

(** X6.  The glow always sends four impulses, with no bounds test: left,
    right, left, right, one third and then two thirds of the way from
    each hand to the centre of the canvas.  The force of an impulse is
    200 times the vector from its hand to the centre, the same at both
    points of a hand. *)
Theorem glow_sends_four (env : Env)
  (leftHandCoords rightHandCoords : PageCoords) :
  let leftX := normalizedX env leftHandCoords in
  let leftY := normalizedY env leftHandCoords in
  let rightX := normalizedX env rightHandCoords in
  let rightY := normalizedY env rightHandCoords in
  exists l1 r1 l2 r2,
    createBothHandsGlowEffect env leftHandCoords rightHandCoords
    = [l1; r1; l2; r2]
    /\ (Splat.x l1 == (2 * leftX + 0.5) / 3
        /\ Splat.y l1 == (2 * leftY + 0.5) / 3
        /\ Splat.x l2 == (leftX + 2 * 0.5) / 3
        /\ Splat.y l2 == (leftY + 2 * 0.5) / 3)
    /\ (Splat.x r1 == (2 * rightX + 0.5) / 3
        /\ Splat.y r1 == (2 * rightY + 0.5) / 3
        /\ Splat.x r2 == (rightX + 2 * 0.5) / 3
        /\ Splat.y r2 == (rightY + 2 * 0.5) / 3)
    /\ (Splat.dx l1 == 200 * (0.5 - leftX)
        /\ Splat.dy l1 == 200 * (0.5 - leftY)
        /\ Splat.dx l2 == 200 * (0.5 - leftX)
        /\ Splat.dy l2 == 200 * (0.5 - leftY))
    /\ (Splat.dx r1 == 200 * (0.5 - rightX)
        /\ Splat.dy r1 == 200 * (0.5 - rightY)
        /\ Splat.dx r2 == 200 * (0.5 - rightX)
        /\ Splat.dy r2 == 200 * (0.5 - rightY)).
Proof.
  cbv zeta. rewrite glow_unfold. cbn [flat_map app].
  do 4 eexists. split; [reflexivity|].
  cbn [glowSplat Splat.x Splat.y Splat.dx Splat.dy].
  repeat split; field.
Qed.

Lemma towards_center_in_range (h t : Q) :
  0 <= h <= 1 -> 0 <= t <= 1 -> 0 <= (1 - t) * h + t * 0.5 <= 1.
Proof. intros Hh Ht. split; nra. Qed.

Lemma glowSplat_in_bounds (handX handY t : Q) (color : Color.t) :
  inUnitSquare handX handY -> 0 <= t <= 1 ->
  splatInBounds (glowSplat handX handY t color).
Proof.
  intros [Hx Hy] Ht. unfold splatInBounds.
  destruct (glowSplat_point handX handY t color) as (-> & -> & _).
  split; apply towards_center_in_range; assumption.
Qed.

(** X7.  Hands inside the canvas keep the glow inside the canvas. *)
Theorem glow_stays_in_bounds (env : Env)
  (leftHandCoords rightHandCoords : PageCoords) :
  inUnitSquare (normalizedX env leftHandCoords)
               (normalizedY env leftHandCoords) ->
  inUnitSquare (normalizedX env rightHandCoords)
               (normalizedY env rightHandCoords) ->
  Forall splatInBounds
         (createBothHandsGlowEffect env leftHandCoords rightHandCoords).
Proof.
  intros Hleft Hright. rewrite glow_unfold. cbn [flat_map app].
  repeat constructor; apply glowSplat_in_bounds;
    try assumption; split; discriminate.
Qed.

(** Hands at page (200, 150) and (600, 450) on the canvas of 800 by
    600. *)
Lemma glow_stays_in_bounds_witness :
  Forall splatInBounds
         (createBothHandsGlowEffect canvas800x600
            {| pageX := 200; pageY := 150 |} {| pageX := 600; pageY := 450 |}).
Proof.
  apply (glow_stays_in_bounds canvas800x600
           {| pageX := 200; pageY := 150 |} {| pageX := 600; pageY := 450 |});
    repeat split; discriminate.
Defined.

(** ** Generators: the wiggly ball of a fist *)

(** X8.  The wiggly ball always sends six impulses, with no bounds test, in
    the colour of its hand; the force of each pulls it back onto the
    anchor of the hand: the point moved by a thirtieth of the force is the
    anchor. *)
Theorem wiggly_ball_pulls_inward `{JsMath} (env : Env) (now : Z)
  (handCoords : PageCoords) (isLeftHand : bool) :
  length (createWigglyBall env now handCoords isLeftHand) = 6%nat
  /\ Forall
       (fun splat =>
          Splat.x splat + Splat.dx splat / 30 == normalizedX env handCoords
          /\ Splat.y splat + Splat.dy splat / 30
             == normalizedY env handCoords
          /\ Splat.color splat
             = if isLeftHand
               then {| Color.r := 0.08; Color.g := 0.02; Color.b := 0.12 |}
               else {| Color.r := 0.12; Color.g := 0.06; Color.b := 0.02 |})
       (createWigglyBall env now handCoords isLeftHand).
Proof.
  unfold createWigglyBall. split; [reflexivity|].
  apply Forall_map, Forall_forall. intros i _.
  cbn [Splat.x Splat.y Splat.dx Splat.dy Splat.color].
  split; [field | split; [field | reflexivity]].
Qed.

(** ** Generators: the two rays to the centre *)





(** X10.  A hand exactly at the centre of the canvas has no direction to the
    centre and sends nothing; the other hand's ray is sent as if it were
    alone.  The host's square root is only asked to map zero to zero. *)
Theorem pointing_ray_from_center_is_empty `{JsMath} (env : Env) (now : Z)
  (random : nat -> Q) (leftHandCoords rightHandCoords : PageCoords) :
  (forall q, q == 0 -> Math_sqrt q == 0) ->
  normalizedX env leftHandCoords == 0.5 ->
  normalizedY env leftHandCoords == 0.5 ->
  createBothPointingRaysToCenter env now random leftHandCoords
                                 rightHandCoords
  = fst (pointingRay true (inject_Z now * 0.002) random
                     (normalizedX env rightHandCoords)
                     (normalizedY env rightHandCoords) 0).
Proof.
  intros Hsqrt Hx Hy. unfold createBothPointingRaysToCenter. cbv zeta.
  assert (Hleft :
    pointingRay false (inject_Z now * 0.002) random
                (normalizedX env leftHandCoords)
                (normalizedY env leftHandCoords) 0
    = ([], 0%nat)).
  { unfold pointingRay.
    match goal with
    | |- (if Qlt_bool 0 ?len then _ else _) = _ =>
        assert (Hlen : Qlt_bool 0 len = false)
    end.
    { apply Qlt_bool_false_iff. rewrite Hsqrt; [apply Qle_refl|].
      rewrite Hx, Hy. reflexivity. }
    rewrite Hlen. reflexivity. }
  rewrite Hleft. reflexivity.
Qed.

(** The left hand at the centre of the canvas of 800 by 600, the right
    hand at page (600, 150). *)
Lemma pointing_ray_from_center_is_empty_witness :
  createBothPointingRaysToCenter canvas800x600 0 (fun _ => 0.5)
    {| pageX := 400; pageY := 300 |} {| pageX := 600; pageY := 150 |}
  = fst (pointingRay true (inject_Z 0 * 0.002) (fun _ => 0.5)
           (normalizedX canvas800x600 {| pageX := 600; pageY := 150 |})
           (normalizedY canvas800x600 {| pageX := 600; pageY := 150 |}) 0).
Proof.
  apply (pointing_ray_from_center_is_empty canvas800x600 0 (fun _ => 0.5)
           {| pageX := 400; pageY := 300 |} {| pageX := 600; pageY := 150 |}).
  - exact approxSqrt_zero.
  - reflexivity.
  - reflexivity.
Defined.

(** ** Generators: the finger ray *)

Lemma div_cases (a b : Q) :
  (b == 0 /\ div a b = DivisionByZero)
  \/ (~ b == 0 /\ div a b = Ok (a / b)).
Proof.
  unfold div. destruct (Qeq_bool b 0) eqn:Hzero.
  - left. split; [apply Qeq_bool_iff, Hzero | reflexivity].
  - right. split; [apply Qeq_bool_neq, Hzero | reflexivity].
Qed.

Lemma ray_break_iff (x y : Q) :
  Qlt_bool x 0 || Qlt_bool 1 x || Qlt_bool y 0 || Qlt_bool 1 y = false
  <-> (0 <= x <= 1 /\ 0 <= y <= 1).
Proof.
  rewrite !orb_false_iff, !Qlt_bool_false_iff. tauto.
Qed.

Lemma fingerRayLoop_in_bounds `{JsMath} (env : Env) (time : Q)
  (random : nat -> Q) (normalizedDirX normalizedDirY startX startY : Q)
  (indices : list nat) :
  forall drawn,
    match fingerRayLoop env time random normalizedDirX normalizedDirY
                        startX startY indices drawn with
    | Ok splats =>
        Forall splatInBounds splats
        /\ (length splats <= length indices)%nat
    | DivisionByZero =>
        canvas_width env == 0 \/ canvas_height env == 0
    end.
Proof.
  induction indices as [|i indices IH]; intros drawn;
    cbn [fingerRayLoop].
  - split; [constructor | apply Nat.le_refl].
  - cbn [div Qeq_bool Qnum Qden Z.mul Pos.mul Z.eqb bind].
    change (div (inject_Z (Z.of_nat i)) 2)
      with (Ok (inject_Z (Z.of_nat i) / 2)).
    cbn [bind].
    match goal with
    | |- context [div ?a (canvas_width env)] =>
        destruct (div_cases a (canvas_width env)) as [[Hw ->]|[_ ->]]
    end; cbn [bind]; [left; exact Hw|].
    match goal with
    | |- context [div ?a (canvas_height env)] =>
        destruct (div_cases a (canvas_height env)) as [[Hh ->]|[_ ->]]
    end; cbn [bind]; [right; exact Hh|].
    match goal with
    | |- context [if ?test then _ else _] => destruct test eqn:Htest
    end.
    + split; [constructor | cbn; lia].
    + apply ray_break_iff in Htest.
      specialize (IH (drawn + 3)%nat).
      destruct (fingerRayLoop env time random normalizedDirX normalizedDirY
                              startX startY indices (drawn + 3)%nat)
        as [splats|]; cbn [bind].
      * destruct IH as [Hall Hlen]. split; [|cbn [length]; lia].
        constructor; [exact Htest | exact Hall].
      * exact IH.
Qed.

(** X11.  Whatever the hand, the finger ray sends at most two impulses and
    each of them lies in [0,1] x [0,1]; the only way it divides by zero is
    a canvas of zero width or height. *)
Theorem finger_ray_in_bounds `{JsMath} `{HandUtils} (env : Env) (now : Z)
  (random : nat -> Q) (landmarks : list NormalizedLandmark.t)
  (handCoords : PageCoords) (isLeftHand : bool) :
  match createFingerRay env now random landmarks handCoords isLeftHand with
  | Ok splats => Forall splatInBounds splats /\ (length splats <= 2)%nat
  | DivisionByZero => canvas_width env == 0 \/ canvas_height env == 0
  end.
Proof.
  unfold createFingerRay.
  destruct (nth_error landmarks INDEX_FINGER_TIP) as [fingerTip|];
    [|split; [constructor | cbn; lia]].
  destruct (nth_error landmarks INDEX_FINGER_MCP) as [fingerMCP|];
    [|split; [constructor | cbn; lia]].
  cbn [getPageCoords].
  match goal with
  | |- context [if Qeq_bool ?len 0 then _ else _] =>
      destruct (Qeq_bool len 0) eqn:Hlen;
      [split; [constructor | cbn; lia]|];
      apply Qeq_bool_neq in Hlen
  end.
  repeat match goal with
         | |- context [div ?a (Math_sqrt ?q)] =>
             destruct (div_cases a (Math_sqrt q)) as [[Hzero _]|[_ ->]];
             [contradiction|]; cbn [bind]
         end.
  match goal with
  | |- context [div ?a (canvas_width env)] =>
      destruct (div_cases a (canvas_width env)) as [[Hw ->]|[_ ->]]
  end; cbn [bind]; [left; exact Hw|].
  match goal with
  | |- context [div ?a (canvas_height env)] =>
      destruct (div_cases a (canvas_height env)) as [[Hh ->]|[_ ->]]
  end; cbn [bind]; [right; exact Hh|].
  match goal with
  | |- context [fingerRayLoop env ?t ?r ?dx ?dy ?sx ?sy (seq 1 2) 0%nat] =>
      exact (fingerRayLoop_in_bounds env t r dx dy sx sy (seq 1 2) 0%nat)
  end.
Qed.

(** ** Generators: the colour of the finger ray *)

Lemma Qtrunc_nonneg (q : Q) :
  0 <= q -> inject_Z (Qtrunc q) <= q /\ q < inject_Z (Qtrunc q) + 1.
Proof.
  intros Hq.
  assert (Hfloor : Qtrunc q = Qfloor q).
  { destruct q as [n d]. unfold Qtrunc, Qfloor. cbn [Qnum Qden].
    apply Z.quot_div_nonneg; [|reflexivity].
    unfold Qle in Hq. cbn in Hq. lia. }
  rewrite Hfloor. split; [apply Qfloor_le|].
  change (inject_Z (Qfloor q) + 1) with (inject_Z (Qfloor q) + inject_Z 1).
  rewrite <- inject_Z_plus. apply Qlt_floor.
Qed.

Lemma js_rem_range (a : Q) : 0 <= a -> 0 <= js_rem a 2 < 2.
Proof.
  intros Ha. unfold js_rem.
  assert (Hhalf : 0 <= a / 2) by (apply Qle_shift_div_l; [reflexivity | lra]).
  destruct (Qtrunc_nonneg (a / 2) Hhalf) as [Hlow Hhigh].
  assert (Ha2 : a == 2 * (a / 2)) by field.
  set (n := inject_Z (Qtrunc (a / 2))) in *.
  set (half := a / 2) in *. lra.
Qed.

(** X12.  For a hue that is not negative, a saturation in [0,1] and a value
    that is not negative, each channel of the converted colour lies
    between [value * (1 - saturation)] and [value]. *)
Theorem rayColor_channels (hue saturation value : Q) :
  0 <= hue -> 0 <= saturation <= 1 -> 0 <= value ->
  let color := rayColor hue saturation value in
  value * (1 - saturation) <= Color.r color <= value
  /\ value * (1 - saturation) <= Color.g color <= value
  /\ value * (1 - saturation) <= Color.b color <= value.
Proof.
  intros Hhue Hsat Hvalue. cbv zeta. unfold rayColor.
  assert (Hrem : 0 <= js_rem (hue * 6) 2 < 2) by (apply js_rem_range; lra).
  set (rem := js_rem (hue * 6) 2) in *.
  assert (Hshare : 0 <= 1 - Math_abs (rem - 1) <= 1).
  { unfold Math_abs.
    pose proof (Qabs_nonneg (rem - 1)).
    assert (Qabs (rem - 1) <= 1) by (apply Qabs_Qle_condition; lra).
    lra. }
  set (share := 1 - Math_abs (rem - 1)) in *.
  assert (Hc : 0 <= value * saturation <= value) by nra.
  set (c := value * saturation) in *.
  assert (Hx : 0 <= c * share <= c) by nra.
  set (x_color := c * share) in *.
  assert (Hm : value * (1 - saturation) == value - c) by (unfold c; ring).
  rewrite Hm.
  case_tests; cbn [Color.r Color.g Color.b]; repeat split; lra.
Qed.

(** A hue of 0.4, saturation 0.8 and value 0.4. *)
Lemma rayColor_channels_witness :
  0.4 * (1 - 0.8) <= Color.r (rayColor 0.4 0.8 0.4) <= 0.4
  /\ 0.4 * (1 - 0.8) <= Color.g (rayColor 0.4 0.8 0.4) <= 0.4
  /\ 0.4 * (1 - 0.8) <= Color.b (rayColor 0.4 0.8 0.4) <= 0.4.
Proof.
  apply (rayColor_channels 0.4 0.8 0.4); try split; discriminate.
Defined.

(** ** Coordinates: from the recognizer to simulation space *)

(** X13.  A point of the recognizer, taken to page coordinates by
    [getPageCoords] and normalized as every generator does, keeps its [x]
    and has its [y] flipped: simulation space is the recognizer's space
    upside down, whatever the canvas (of non-zero size) and the pixel
    ratio. *)
Theorem landmark_to_simulation_space (env : Env) (point : Coords2D.t) :
  ~ canvas_width env == 0 ->
  ~ canvas_height env == 0 ->
  exists page,
    getPageCoords env (Some point) = Some page
    /\ normalizedX env page == Coords2D.x point
    /\ normalizedY env page == 1 - Coords2D.y point.
Proof.
  intros Hwidth Hheight. pose proof (pixelRatio_nonzero env) as Hratio.
  eexists. split; [reflexivity|].
  unfold normalizedX, normalizedY. cbn [pageX pageY].
  split; field; auto.
Qed.

(** The point (0.25, 0.4) on the canvas of 800 by 600. *)
Lemma landmark_to_simulation_space_witness :
  exists page,
    getPageCoords canvas800x600
                  (Some {| Coords2D.x := 0.25; Coords2D.y := 0.4 |})
    = Some page
    /\ normalizedX canvas800x600 page == 0.25
    /\ normalizedY canvas800x600 page == 1 - 0.4.
Proof.
  apply (landmark_to_simulation_space canvas800x600
           {| Coords2D.x := 0.25; Coords2D.y := 0.4 |}); discriminate.
Defined.

(** ** Dispatcher: the touches of a frame *)

(** X14.  A frame synthesizes at most two touches, the left hand's (identifier
    -10) before the right hand's (-11), each with its screen and client
    coordinates equal to its page coordinates. *)
Theorem palm_touches_identified `{HandUtils} (env : Env)
  (leftHand rightHand : option Hand) :
  let touches := palmTouches env leftHand rightHand in
  (map Touch.identifier touches = []
   \/ map Touch.identifier touches = [(-10)%Z]
   \/ map Touch.identifier touches = [(-11)%Z]
   \/ map Touch.identifier touches = [(-10)%Z; (-11)%Z])
  /\ Forall (fun touch =>
               Touch.screenX touch = Touch.pageX touch
               /\ Touch.screenY touch = Touch.pageY touch
               /\ Touch.clientX touch = Touch.pageX touch
               /\ Touch.clientY touch = Touch.pageY touch)
            touches.
Proof.
  cbv zeta. unfold palmTouches, palmTouch.
  destruct (withXY (coordsWhen env leftHand GESTURE_MATCH)),
    (withXY (coordsWhen env rightHand GESTURE_MATCH)); cbn [app map].
  - split; [right; right; right; reflexivity|].
    repeat constructor.
  - split; [right; left; reflexivity|]. repeat constructor.
  - split; [right; right; left; reflexivity|]. repeat constructor.
  - split; [left; reflexivity | constructor].
Qed.

(** ** Dispatcher: frames that call no generator *)

Lemma coordsWhen_absent `{HandUtils} (env : Env) (hand : option Hand)
  (name : string) :
  gestureIs hand name = false -> coordsWhen env hand name = None.
Proof. intros Hno. unfold coordsWhen. rewrite Hno. reflexivity. Qed.

(** X15.  A frame in which neither hand shows an open palm, a fist, a pointing
    finger or a thumb up -- in particular a frame with no hand at all --
    only advances the projectiles: the calls are their trail splats, both
    histories are left as they were, and the previous touch list becomes
    empty. *)
Theorem idle_frame_only_ticks `{JsMath} `{HandUtils} (env : Env)
  (engine : Engine) (frame : Frame) :
  (forall name,
      In name [GESTURE_MATCH; FIST_GESTURE; POINTING_GESTURE;
               THUMB_UP_GESTURE] ->
      gestureIs (leftOf (currentHandData frame)) name = false
      /\ gestureIs (rightOf (currentHandData frame)) name = false) ->
  processResults env engine frame
  = ({| magicBalls := tickBalls (magicBalls engine);
        leftHandHistory := leftHandHistory engine;
        rightHandHistory := rightHandHistory engine;
        previousTouches := Some [] |},
     map CreateSplat (snd (updateMagicBalls (magicBalls engine)))).
Proof.
  intros Hidle.
  destruct (Hidle GESTURE_MATCH) as [HlPalm HrPalm]; [cbn; tauto|].
  destruct (Hidle FIST_GESTURE) as [HlFist HrFist]; [cbn; tauto|].
  destruct (Hidle POINTING_GESTURE) as [HlPoint HrPoint]; [cbn; tauto|].
  destruct (Hidle THUMB_UP_GESTURE) as [HlThumb HrThumb]; [cbn; tauto|].
  unfold processResults, palmTouches.
  rewrite !(coordsWhen_absent env _ _ HlPalm),
    !(coordsWhen_absent env _ _ HrPalm),
    (coordsWhen_absent env _ _ HlFist), (coordsWhen_absent env _ _ HrFist),
    (coordsWhen_absent env _ _ HlPoint), (coordsWhen_absent env _ _ HrPoint),
    (coordsWhen_absent env _ _ HlThumb), (coordsWhen_absent env _ _ HrThumb).
  cbn [thumbUp fst snd dispatchFists dispatchPointing dispatchPalms withXY
       palmTouch app length Nat.ltb Nat.leb].
  rewrite updateMagicBalls_spec. reflexivity.
Qed.

(** The frame with no hand data, on the initial engine. *)
Lemma idle_frame_only_ticks_witness :
  processResults canvas800x600 initialEngine emptyFrame
  = ({| magicBalls := tickBalls (magicBalls initialEngine);
        leftHandHistory := leftHandHistory initialEngine;
        rightHandHistory := rightHandHistory initialEngine;
        previousTouches := Some [] |},
     map CreateSplat (snd (updateMagicBalls (magicBalls initialEngine)))).
Proof.
  apply (idle_frame_only_ticks canvas800x600 initialEngine emptyFrame).
  intros name _. split; reflexivity.
Defined.

(** ** Dispatcher: two fists *)

(** X16.  Two fists with their anchors available get one wiggly ball each, the
    left hand's first, and the frame calls nothing else but the trail
    splats of the projectiles: there is no combined effect for fists. *)
Theorem two_fists_two_wiggly_balls `{JsMath} `{HandUtils} (env : Env)
  (engine : Engine) (frame : Frame) (l r : PageCoords) :
  gestureIs (leftOf (currentHandData frame)) FIST_GESTURE = true ->
  gestureIs (rightOf (currentHandData frame)) FIST_GESTURE = true ->
  anchor env (leftOf (currentHandData frame)) = Some l ->
  anchor env (rightOf (currentHandData frame)) = Some r ->
  snd (processResults env engine frame)
  = CreateWigglyBall l true :: CreateWigglyBall r false
    :: map CreateSplat (snd (updateMagicBalls (magicBalls engine))).
Proof.
  intros Hleft Hright Hl Hr.
  unfold processResults, palmTouches. cbn [snd].
  rewrite !(coordsWhen_other env _ FIST_GESTURE GESTURE_MATCH Hleft),
    !(coordsWhen_other env _ FIST_GESTURE GESTURE_MATCH Hright),
    (coordsWhen_other env _ FIST_GESTURE POINTING_GESTURE Hleft),
    (coordsWhen_other env _ FIST_GESTURE POINTING_GESTURE Hright),
    (coordsWhen_other env _ FIST_GESTURE THUMB_UP_GESTURE Hleft),
    (coordsWhen_other env _ FIST_GESTURE THUMB_UP_GESTURE Hright)
    by reflexivity.
  unfold dispatchFists. rewrite !coordsWhen_anchor.
  rewrite Hleft, Hright, Hl, Hr. reflexivity.
Qed.

(** Two fists on the canvas of 800 by 600. *)
Lemma two_fists_two_wiggly_balls_witness :
  exists l r,
    snd (processResults canvas800x600 initialEngine
           (frameOf (Some leftFist) (Some rightFist)))
    = CreateWigglyBall l true :: CreateWigglyBall r false
      :: map CreateSplat
             (snd (updateMagicBalls (magicBalls initialEngine))).
Proof.
  eexists. eexists.
  apply (two_fists_two_wiggly_balls canvas800x600 initialEngine
           (frameOf (Some leftFist) (Some rightFist))); reflexivity.
Defined.

(** ** Dispatcher: glow and touch *)

Lemma processResults_previousTouches `{JsMath} `{HandUtils} (env : Env)
  (engine : Engine) (frame : Frame) :
  previousTouches (fst (processResults env engine frame))
  = Some (palmTouches env (leftOf (currentHandData frame))
                      (rightOf (currentHandData frame))).
Proof. reflexivity. Qed.

Lemma palmTouches_one_no_glow `{HandUtils} (env : Env)
  (leftHand rightHand : option Hand) (previous : option (list Touch.t)) :
  length (palmTouches env leftHand rightHand) = 1%nat ->
  dispatchPalms (coordsWhen env leftHand GESTURE_MATCH)
                (coordsWhen env rightHand GESTURE_MATCH) previous
                (palmTouches env leftHand rightHand)
  = sendTouch (fst (getEvent previous (palmTouches env leftHand rightHand))).
Proof.
  unfold palmTouches, palmTouch, dispatchPalms.
  destruct (withXY (coordsWhen env leftHand GESTURE_MATCH)),
    (withXY (coordsWhen env rightHand GESTURE_MATCH));
    cbn [app length]; try discriminate; intros _; reflexivity.
Qed.

Lemma palmTouches_both `{HandUtils} (env : Env)
  (leftHand rightHand : option Hand) (l r : PageCoords) :
  gestureIs leftHand GESTURE_MATCH = true ->
  gestureIs rightHand GESTURE_MATCH = true ->
  anchor env leftHand = Some l ->
  anchor env rightHand = Some r ->
  palmTouches env leftHand rightHand
  = [getTouch (pageX l) (pageY l) LEFT_HAND_EVENT_ID;
     getTouch (pageX r) (pageY r) RIGHT_HAND_EVENT_ID].
Proof.
  intros Hleft Hright Hl Hr. unfold palmTouches, palmTouch.
  rewrite !coordsWhen_anchor, Hleft, Hright, Hl, Hr. reflexivity.
Qed.

(** X17.  A frame with both palms open and both anchors available calls the
    glow and no touch function -- besides the glow it only sends the trail
    splats -- yet it leaves its two touches as the previous touch list; a
    next frame with a single touch therefore sends a [touchmove], which no
    [touchstart] came before. *)
Theorem glow_then_single_palm_moves `{JsMath} `{HandUtils} (env : Env)
  (engine : Engine) (glowFrame nextFrame : Frame) (l r : PageCoords) :
  gestureIs (leftOf (currentHandData glowFrame)) GESTURE_MATCH = true ->
  gestureIs (rightOf (currentHandData glowFrame)) GESTURE_MATCH = true ->
  anchor env (leftOf (currentHandData glowFrame)) = Some l ->
  anchor env (rightOf (currentHandData glowFrame)) = Some r ->
  length (palmTouches env (leftOf (currentHandData nextFrame))
                      (rightOf (currentHandData nextFrame))) = 1%nat ->
  snd (processResults env engine glowFrame)
  = CreateBothHandsGlowEffect l r
    :: map CreateSplat (snd (updateMagicBalls (magicBalls engine)))
  /\ filter isTouchCall
            (snd (processResults env
                    (fst (processResults env engine glowFrame)) nextFrame))
     = [SendTouchMove
          (createTouchEvent "touchmove"
             (palmTouches env (leftOf (currentHandData nextFrame))
                          (rightOf (currentHandData nextFrame))))].
Proof.
  intros Hleft Hright Hl Hr Hone. split.
  - unfold processResults. cbn [snd].
    rewrite (palmTouches_both env _ _ l r Hleft Hright Hl Hr).
    rewrite (coordsWhen_other env _ GESTURE_MATCH FIST_GESTURE Hleft),
      (coordsWhen_other env _ GESTURE_MATCH FIST_GESTURE Hright),
      (coordsWhen_other env _ GESTURE_MATCH POINTING_GESTURE Hleft),
      (coordsWhen_other env _ GESTURE_MATCH POINTING_GESTURE Hright),
      (coordsWhen_other env _ GESTURE_MATCH THUMB_UP_GESTURE Hleft),
      (coordsWhen_other env _ GESTURE_MATCH THUMB_UP_GESTURE Hright)
      by reflexivity.
    unfold dispatchPalms. rewrite !coordsWhen_anchor.
    rewrite Hleft, Hright, Hl, Hr. reflexivity.
  - rewrite processResults_touch, processResults_previousTouches.
    rewrite (palmTouches_one_no_glow env _ _ _ Hone), sendTouch_getEvent.
    rewrite (palmTouches_both env _ _ l r Hleft Hright Hl Hr).
    cbn [previousList length]. rewrite Hone. reflexivity.
Qed.

(** Both palms open, then the left palm alone, on the canvas of 800 by
    600. *)
Lemma glow_then_single_palm_moves_witness :
  (exists l r,
      snd (processResults canvas800x600 initialEngine
             (frameOf (Some leftPalm) (Some rightPalm)))
      = CreateBothHandsGlowEffect l r
        :: map CreateSplat
               (snd (updateMagicBalls (magicBalls initialEngine))))
  /\ filter isTouchCall
            (snd (processResults canvas800x600
                    (fst (processResults canvas800x600 initialEngine
                            (frameOf (Some leftPalm) (Some rightPalm))))
                    (frameOf (Some leftPalm) None)))
     = [SendTouchMove
          (createTouchEvent "touchmove"
             (palmTouches canvas800x600 (Some leftPalm) None))].
Proof.
  edestruct (glow_then_single_palm_moves canvas800x600 initialEngine
               (frameOf (Some leftPalm) (Some rightPalm))
               (frameOf (Some leftPalm) None))
    as [Hglow Hmove];
    [reflexivity | reflexivity | reflexivity | reflexivity | reflexivity |].
  split; [eexists; eexists; exact Hglow | exact Hmove].
Defined.

(** ** Dispatcher: throws *)

Lemma updateHandVelocityHistory_length (env : Env) (now : Z)
  (history : list HandVelocity.t) (coords : PageCoords) :
  (length (updateHandVelocityHistory env now history coords)
   <= length history + 1)%nat.
Proof.
  unfold updateHandVelocityHistory, push.
  rewrite shiftWhileLonger_skipn, length_skipn, length_app. cbn [length]. lia.
Qed.

Lemma detectThrowingMotion_short `{JsMath} (history : list HandVelocity.t) :
  (length history < 3)%nat -> detectThrowingMotion history = None.
Proof.
  intros Hshort. rewrite detectThrowingMotion_unfold.
  apply Nat.ltb_lt in Hshort. rewrite Hshort. reflexivity.
Qed.

Lemma thumbUp_short `{JsMath} (env : Env) (now : Z) (random : nat -> Q)
  (thumbUpCoords : option PageCoords) (isLeftHand : bool)
  (history : list HandVelocity.t) (magicBalls : list MagicBall.t) :
  (length history <= 1)%nat ->
  snd (thumbUp env now random thumbUpCoords isLeftHand history magicBalls)
  = magicBalls
  /\ (length (fst (thumbUp env now random thumbUpCoords isLeftHand history
                           magicBalls))
      <= length history + 1)%nat.
Proof.
  intros Hshort. unfold thumbUp.
  destruct thumbUpCoords as [coords|]; [|split; [reflexivity | cbn; lia]].
  pose proof (updateHandVelocityHistory_length env now history coords).
  rewrite detectThrowingMotion_short by lia.
  split; [reflexivity | assumption].
Qed.

Lemma processResults_no_spawn `{JsMath} `{HandUtils} (env : Env)
  (engine : Engine) (frame : Frame) :
  (length (leftHandHistory engine) <= 1)%nat ->
  (length (rightHandHistory engine) <= 1)%nat ->
  magicBalls (fst (processResults env engine frame))
  = tickBalls (magicBalls engine)
  /\ (length (leftHandHistory (fst (processResults env engine frame)))
      <= length (leftHandHistory engine) + 1)%nat
  /\ (length (rightHandHistory (fst (processResults env engine frame)))
      <= length (rightHandHistory engine) + 1)%nat.
Proof.
  intros Hleft Hright. unfold processResults.
  cbn [fst magicBalls leftHandHistory rightHandHistory].
  match goal with
  | |- context [thumbUp env (nowLeft frame) ?rnd ?coords true ?h ?b] =>
      destruct (thumbUp_short env (nowLeft frame) rnd coords true h b Hleft)
        as [HballsL HlenL]
  end.
  rewrite HballsL.
  match goal with
  | |- context [thumbUp env (nowRight frame) ?rnd ?coords false ?h ?b] =>
      destruct (thumbUp_short env (nowRight frame) rnd coords false h b
                  Hright) as [HballsR HlenR]
  end.
  rewrite HballsR, updateMagicBalls_spec.
  split; [reflexivity | split; assumption].
Qed.

(** X18.  A throw needs three samples: from an engine whose two histories are
    empty, as at the start and as a throw leaves the history of its hand,
    no two frames spawn a ball, whatever the hands do; the projectiles are
    only ticked twice. *)
Theorem no_throw_within_two_frames `{JsMath} `{HandUtils} (env : Env)
  (engine : Engine) (first second : Frame) :
  leftHandHistory engine = [] ->
  rightHandHistory engine = [] ->
  magicBalls
    (fst (processResults env (fst (processResults env engine first)) second))
  = tickBalls (tickBalls (magicBalls engine)).
Proof.
  intros Hleft Hright.
  destruct (processResults_no_spawn env engine first)
    as (Hballs & HlenL & HlenR); [rewrite Hleft; cbn; lia
                                 | rewrite Hright; cbn; lia |].
  rewrite Hleft, Hright in *. cbn [length] in *.
  destruct (processResults_no_spawn env
              (fst (processResults env engine first)) second)
    as (Hballs' & _ & _); [lia | lia |].
  rewrite Hballs', Hballs. reflexivity.
Qed.

(** Two thumb-up frames of a fast swipe, on the initial engine. *)
Lemma no_throw_within_two_frames_witness :
  magicBalls
    (fst (processResults canvas800x600
            (fst (processResults canvas800x600 initialEngine swipeFrame))
            swipeFrame))
  = tickBalls (tickBalls (magicBalls initialEngine)).
Proof.
  apply (no_throw_within_two_frames canvas800x600 initialEngine
           swipeFrame swipeFrame); reflexivity.
Defined.

Lemma thrownBall_survives (env : Env) (random : nat -> Q)
  (handCoords : PageCoords) (velocity : Velocity.t) :
  survives (thrownBall env random handCoords velocity) = true.
Proof. reflexivity. Qed.

(** X19.  On the frame in which the left hand's throw is detected, the history
    of that hand is cleared, the other history is left alone when the
    other hand shows no thumb up, and the new ball is already advanced by
    one tick: it ends the frame last in the collection with 119 ticks
    left. *)
Theorem throw_frame `{JsMath} `{HandUtils} (env : Env) (engine : Engine)
  (frame : Frame) (coords : PageCoords) (velocity : Velocity.t) :
  coordsWhen env (leftOf (currentHandData frame)) THUMB_UP_GESTURE
  = Some coords ->
  detectThrowingMotion
    (updateHandVelocityHistory env (nowLeft frame) (leftHandHistory engine)
                               coords)
  = Some velocity ->
  gestureIs (rightOf (currentHandData frame)) THUMB_UP_GESTURE = false ->
  let engine' := fst (processResults env engine frame) in
  leftHandHistory engine' = []
  /\ rightHandHistory engine' = rightHandHistory engine
  /\ magicBalls engine'
     = tickBalls (skipn (length (magicBalls engine) + 1 - 10)
                        (magicBalls engine))
       ++ [advance (thrownBall env (randomLeft frame) coords velocity)]
  /\ MagicBall.life
       (advance (thrownBall env (randomLeft frame) coords velocity))
     = 119%Z.
Proof.
  intros Hcoords Hthrow Hright. cbv zeta. unfold processResults.
  cbn [fst magicBalls leftHandHistory rightHandHistory].
  rewrite Hcoords, (coordsWhen_absent env _ _ Hright).
  cbn [thumbUp]. rewrite Hthrow. cbn [fst snd].
  rewrite updateMagicBalls_spec, throwMagicBall_appends, tickBalls_app.
  rewrite tickBalls_one, thrownBall_survives.
  repeat split; reflexivity.
Qed.

(** The third sample of a fast swipe of the left hand. *)
Lemma throw_frame_witness :
  leftHandHistory (fst (processResults canvas800x600 swipingEngine
                                       swipeFrame)) = []
  /\ exists ball,
       magicBalls (fst (processResults canvas800x600 swipingEngine
                                       swipeFrame)) = [ball]
       /\ MagicBall.life ball = 119%Z.
Proof.
  edestruct (throw_frame canvas800x600 swipingEngine swipeFrame)
    as (Hleft & _ & Hballs & Hlife);
    [vm_compute; reflexivity | vm_compute; reflexivity | reflexivity |].
  split; [exact Hleft|].
  eexists. split; [exact Hballs | exact Hlife].
Defined.

(** ** Velocity tracker: histories that never throw *)

Lemma validPair_stale (pair : HandVelocity.t * HandVelocity.t) :
  (millisBetween pair <= 0 \/ 100 <= millisBetween pair)%Z ->
  validPair pair = false.
Proof.
  unfold millisBetween, validPair, timeDelta. intros [Hback|Hslow].
  - apply andb_false_iff. left. apply Qlt_bool_false_iff.
    apply Qle_shift_div_r; [reflexivity|].
    rewrite Zle_Qle in Hback. change (inject_Z 0) with 0 in Hback. lra.
  - apply andb_false_iff. right. apply Qlt_bool_false_iff.
    apply Qle_shift_div_l; [reflexivity|].
    rewrite Zle_Qle in Hslow. change (inject_Z 100) with 100 in Hslow. lra.
Qed.

Lemma filter_none {A : Type} (f : A -> bool) (l : list A) :
  Forall (fun a => f a = false) l -> filter f l = [].
Proof.
  induction 1 as [|a l Ha _ IH]; [reflexivity|].
  cbn [filter]. rewrite Ha. exact IH.
Qed.

(** X20.  A history in which every two consecutive samples are 100 ms or more
    apart, or not in increasing time, never yields a throw, however fast
    the hand moved: a hand sampled at 10 frames per second or slower
    cannot throw. *)
Theorem sparse_history_never_throws `{JsMath}
  (history : list HandVelocity.t) :
  Forall (fun pair => (millisBetween pair <= 0 \/ 100 <= millisBetween pair)%Z)
         (consecutivePairs history) ->
  detectThrowingMotion history = None.
Proof.
  intros Hstale. rewrite detectThrowingMotion_unfold.
  assert (Hnone : validVelocities history = []).
  { unfold validVelocities. rewrite filter_none; [reflexivity|].
    eapply Forall_impl; [|exact Hstale]. apply validPair_stale. }
  rewrite Hnone. cbn [length Nat.eqb].
  destruct (length history <? 3)%nat; reflexivity.
Qed.

(** A swipe of 4.5 units per second sampled every 100 ms. *)
Lemma sparse_history_never_throws_witness :
  detectThrowingMotion sparseSwipe = None.
Proof.
  apply (sparse_history_never_throws sparseSwipe).
  unfold sparseSwipe, consecutivePairs. cbn [tl combine].
  constructor; [right; cbn; lia|].
  constructor; [right; cbn; lia | constructor].
Defined.

Lemma fold_Qplus_zeros (l : list Q) :
  Forall (fun q => q == 0) l -> forall acc, fold_left Qplus l acc == acc.
Proof.
  induction 1 as [|q l Hq _ IH]; intros acc; cbn [fold_left].
  - reflexivity.
  - rewrite IH, Hq. ring.
Qed.

Lemma in_consecutivePairs (history : list HandVelocity.t)
  (pair : HandVelocity.t * HandVelocity.t) :
  In pair (consecutivePairs history) ->
  In (fst pair) history /\ In (snd pair) history.
Proof.
  unfold consecutivePairs. destruct pair as [earlier later]. intros Hin.
  split.
  - apply (in_combine_l _ _ _ _ Hin).
  - apply in_combine_r in Hin. destruct history; [destruct Hin|].
    right. exact Hin.
Qed.

(** X21.  A hand that does not move never throws: when all samples of a history
    are at the same point the detector returns none, whatever their
    timestamps.  The host's square root is only asked to map zero to
    zero. *)
Theorem still_hand_never_throws `{JsMath} (history : list HandVelocity.t)
  (x y : Q) :
  (forall q, q == 0 -> Math_sqrt q == 0) ->
  Forall (fun sample => HandVelocity.x sample == x
                        /\ HandVelocity.y sample == y) history ->
  detectThrowingMotion history = None.
Proof.
  intros Hsqrt Hstill. rewrite detectThrowingMotion_unfold.
  assert (Hzero :
    Forall (fun v => Velocity.vx v == 0 /\ Velocity.vy v == 0)
           (validVelocities history)).
  { unfold validVelocities. apply Forall_map, Forall_forall.
    intros pair Hin. apply filter_In in Hin. destruct Hin as [Hin _].
    apply in_consecutivePairs in Hin. destruct Hin as [Hearlier Hlater].
    rewrite Forall_forall in Hstill.
    destruct (Hstill _ Hearlier) as [Hx1 Hy1].
    destruct (Hstill _ Hlater) as [Hx2 Hy2].
    cbn [pairVelocity Velocity.vx Velocity.vy].
    rewrite Hx1, Hx2, Hy1, Hy2. unfold Qdiv. split; ring. }
  assert (Havg :
    Velocity.vx (averageVelocity history) == 0
    /\ Velocity.vy (averageVelocity history) == 0).
  { unfold averageVelocity, Qsum. cbn [Velocity.vx Velocity.vy].
    rewrite !fold_Qplus_zeros.
    - unfold Qdiv. split; ring.
    - apply Forall_map. eapply Forall_impl; [|exact Hzero].
      intros v [_ Hvy]. exact Hvy.
    - apply Forall_map. eapply Forall_impl; [|exact Hzero].
      intros v [Hvx _]. exact Hvx. }
  assert (Hspeed :
    Qlt_bool THROW_VELOCITY_THRESHOLD (magnitude (averageVelocity history))
    = false).
  { apply Qlt_bool_false_iff. unfold magnitude. destruct Havg as [Hvx Hvy].
    rewrite Hsqrt; [discriminate|]. rewrite Hvx, Hvy. reflexivity. }
  rewrite Hspeed.
  destruct (length history <? 3)%nat; [reflexivity|].
  destruct (length (validVelocities history) =? 0)%nat; reflexivity.
Qed.

(** Four samples of a hand at rest at (0.3, 0.6). *)
Lemma still_hand_never_throws_witness :
  detectThrowingMotion stillHand = None.
Proof.
  apply (still_hand_never_throws stillHand 0.3 0.6).
  - exact approxSqrt_zero.
  - repeat constructor.
Defined.
